(** * examples/c_tebd.py: the TEBD example script of TeNPy

    The script is orchestration code: it assembles parameter dictionaries,
    calls into the tensor-network library, numpy, matplotlib and two sibling
    example modules, and prints.  We embed its three functions and its
    [__main__] block as programs of a small monad that records every
    interaction with that environment, and we prove the claims of the
    specification about the recorded interactions.

    Python's [float] is IEEE-754 binary64; it is modelled with the Standard
    Library's [spec_float] at precision 53 and maximal exponent 1024. *)

From Stdlib Require Import ZArith List String Ascii Bool Lia.
From Stdlib Require Import SpecFloat DecimalString.
Import ListNotations.
Open Scope string_scope.
Open Scope Z_scope.

(** ** Python exceptions and outcomes *)

Inductive exn : Type :=
| ZeroDivisionError
| ValueError
| OverflowError
| ImportError
| LibraryError (what : string).

Inductive outcome (A : Type) : Type :=
| Ok (a : A)
| Raise (x : exn).
Arguments Ok {A} a.
Arguments Raise {A} x.

(** ** Python floats *)

Module Float64.

Definition prec : Z := 53.
Definition emax : Z := 1024.

Definition float : Type := spec_float.

Definition add : float -> float -> float := SFadd prec emax.
Definition sub : float -> float -> float := SFsub prec emax.
Definition mul : float -> float -> float := SFmul prec emax.
Definition div : float -> float -> float := SFdiv prec emax.
Definition abs : float -> float := SFabs.
Definition ltb : float -> float -> bool := SFltb.

(** The float nearest to an integer (ties to even); an infinity when the
    integer is out of range. *)
Definition of_Z (z : Z) : float := binary_normalize prec emax z 0 false.

(** A decimal literal [n/d], for [n] and [d] below [2^53]: the division of
    two exact floats is correctly rounded, as the literal is. *)
Definition lit (n d : Z) : float := div (of_Z n) (of_Z d).

Definition is_zero (x : float) : bool :=
  match x with S754_zero _ => true | _ => false end.

Definition sign (x : float) : bool :=
  match x with
  | S754_zero s | S754_infinity s | S754_finite s _ _ => s
  | S754_nan => false
  end.

(** The exact value of a finite float as [n * 2^e] with a signed [n]. *)
Definition signed (s : bool) (m : positive) : Z :=
  if s then Z.neg m else Z.pos m.

(** C's [fmod]: the remainder of the truncating division, computed
    exactly; it has the sign of [x]. *)
Definition fmod (x y : float) : float :=
  match x, y with
  | S754_nan, _ | _, S754_nan => S754_nan
  | S754_infinity _, _ => S754_nan
  | _, S754_zero _ => S754_nan
  | S754_zero _, _ => x
  | S754_finite _ _ _, S754_infinity _ => x
  | S754_finite sx mx ex, S754_finite _ my ey =>
      let e := Z.min ex ey in
      let X := Z.pos mx * 2 ^ (ex - e) in
      let Y := Z.pos my * 2 ^ (ey - e) in
      let R := Z.rem X Y in
      binary_normalize prec emax (if sx then - R else R) e sx
  end.

(** C's [floor]. *)
Definition floor (x : float) : float :=
  match x with
  | S754_finite s m e =>
      if 0 <=? e then x
      else binary_normalize prec emax (signed s m / 2 ^ (- e)) 0 s
  | _ => x
  end.

(** C's [copysign(0.0, x)]. *)
Definition zero_with_sign_of (x : float) : float := S754_zero (sign x).

(** [float.__floordiv__], after CPython's [float_floor_div] and
    [_float_div_mod]. *)
Definition floordiv (vx wx : float) : outcome float :=
  if is_zero wx then Raise ZeroDivisionError
  else
    let mod0 := fmod vx wx in
    let div0 := div (sub vx mod0) wx in
    let div1 :=
      if is_zero mod0 then div0
      else if negb (Bool.eqb (ltb wx (S754_zero false))
                             (ltb mod0 (S754_zero false)))
           then sub div0 (of_Z 1)
           else div0 in
    if is_zero div1 then Ok (zero_with_sign_of (div vx wx))
    else
      let fl := floor div1 in
      if ltb (lit 1 2) (sub div1 fl) then Ok (add fl (of_Z 1)) else Ok fl.

(** [float.__truediv__]. *)
Definition truediv (x y : float) : outcome float :=
  if is_zero y then Raise ZeroDivisionError else Ok (div x y).

(** [int(x)] for a float [x]: truncation towards zero. *)
Definition to_int (x : float) : outcome Z :=
  match x with
  | S754_nan => Raise ValueError
  | S754_infinity _ => Raise OverflowError
  | S754_zero _ => Ok 0
  | S754_finite s m e =>
      Ok (if 0 <=? e then signed s m * 2 ^ e
          else Z.quot (signed s m) (2 ^ (- e)))
  end.

(** [float(n)] for an int [n], as in the mixed arithmetic [n * x]. *)
Definition of_int (n : Z) : outcome float :=
  match of_Z n with
  | S754_infinity _ => Raise OverflowError
  | f => Ok f
  end.

End Float64.

Definition float : Type := Float64.float.

(** ** String formatting *)

(** [str.format] with the specification [d] on an int. *)
Definition format_d (z : Z) : string :=
  NilZero.string_of_int (Z.to_int z).

Fixpoint zeros (n : nat) : string :=
  match n with
  | O => ""
  | S n' => String "0" (zeros n')
  end.

(** The decimal digits of [q >= 0], padded on the left to [p + 1] digits,
    with a point before the last [p] digits when [p > 0]. *)
Definition fixed_point (p : nat) (q : Z) : string :=
  let ds := NilZero.string_of_uint (N.to_uint (Z.to_N q)) in
  let ds := zeros (S p - String.length ds) ++ ds in
  let n := (String.length ds - p)%nat in
  if Nat.eqb p 0 then ds
  else substring 0 n ds ++ "." ++ substring n p ds.

(** [str.format] with the specification [.pf] on a float: the exact value,
    rounded to [p] decimals, ties to even. *)
Definition format_f (p : nat) (x : float) : string :=
  match x with
  | S754_nan => "nan"
  | S754_infinity s => if s then "-inf" else "inf"
  | S754_zero s => (if s then "-" else "") ++ fixed_point p 0
  | S754_finite s m e =>
      let num := if 0 <=? e then Z.pos m * 2 ^ e * 10 ^ Z.of_nat p
                 else Z.pos m * 10 ^ Z.of_nat p in
      let den := if 0 <=? e then 1 else 2 ^ (- e) in
      let q := num / den in
      let r := num mod den in
      let q' := if (den <? 2 * r) || ((den =? 2 * r) && Z.odd q)
                then q + 1 else q in
      (if s then "-" else "") ++ fixed_point p q'
  end.

(** [s * n] for a string [s]. *)
Fixpoint str_repeat (s : string) (n : nat) : string :=
  match n with
  | O => ""
  | S n' => s ++ str_repeat s n'
  end.

(** ** Python values *)

(** A reference to an object owned by a library: a model, a lattice, a
    matrix product state, an engine, a numpy array, a matplotlib artist. *)
Inductive obj : Type := Obj (id : nat).

Unset Elimination Schemes.
Inductive pyval : Type :=
| PyNone
| PyBool (b : bool)
| PyInt (z : Z)
| PyFloat (x : float)
| PyStr (s : string)
| PyObj (o : obj)
| PyList (l : list pyval)
| PyTuple (l : list pyval)
| PyDict (d : list (string * pyval)).
Set Elimination Schemes.

(** A [dict] with string keys, in insertion order. *)
Definition dict : Type := list (string * pyval).

Fixpoint dict_get (d : dict) (k : string) : option pyval :=
  match d with
  | [] => None
  | (k', v) :: d' => if String.eqb k k' then Some v else dict_get d' k
  end.

(** The type and the value of Python's [None]. *)
Definition NoneType : Type := unit.
Definition None_ : NoneType := tt.

(** ** The environment of the script *)

(** Everything the script asks of its environment.  The constructors keep
    the names of the source; [attr_x o] is the attribute read [o.x]. *)
Inductive request : Type :=
(* builtins *)
| print (args : list pyval)
| import_ (module : string)
(* attribute reads *)
| attr_lat (M : obj)
| attr_N_sites (lat : obj)
| attr_bc_MPS (lat : obj)
| attr_chi (psi : obj)
| attr_evolved_time (eng : obj)
(* tenpy *)
| TFIChain (model_params : dict)
| mps_sites (lat : obj)
| MPS_from_product_state (sites : obj) (p_state : list string) (bc : string)
| tebd_Engine (psi M : obj) (TEBD_params : dict)
| run_GS (eng : obj)
| run (eng : obj)
| bond_energies (M psi : obj)
| expectation_value (psi : obj) (op : string)
| correlation_length (psi : obj)
| entanglement_entropy (psi : obj)
| apply_local_op (psi : obj) (i : Z) (op : string) (unitary : bool)
(* numpy *)
| np_sum (a : obj)
| np_mean (a : obj)
(* the sibling example modules tfi_exact and d_dmrg *)
| finite_gs_energy (L : Z) (J g : float)
| infinite_gs_energy (J g : float)
| example_DMRG_tf_ising_finite (L : Z) (g : float) (verbose : bool)
(* matplotlib.pyplot *)
| plt_figure
| plt_imshow (X : list obj) (vmin : float) (aspect interpolation : string)
             (extent : pyval)
| plt_xlabel (s : string)
| plt_ylabel (s : string)
| plt_ylim (lo hi : float)
| plt_colorbar
| set_label (cb : obj) (s : string)
| plt_savefig (fname : string)
(* what a Python program can also do, and this script never does *)
| setattr_ (o : obj) (name : string) (v : pyval)
| delattr_ (o : obj) (name : string)
| sys_argv
| open_ (file mode : string).

(** The type of the answer to a request. *)
Definition ret_type (q : request) : Type :=
  match q with
  | print _ | import_ _ => NoneType
  | attr_lat _ => obj
  | attr_N_sites _ => Z
  | attr_bc_MPS _ => string
  | attr_chi _ => pyval
  | attr_evolved_time _ => float
  | TFIChain _ | mps_sites _ | MPS_from_product_state _ _ _
  | tebd_Engine _ _ _ => obj
  | run_GS _ | run _ => NoneType
  | bond_energies _ _ | expectation_value _ _ => obj
  | correlation_length _ => float
  | entanglement_entropy _ => obj
  | apply_local_op _ _ _ _ => NoneType
  | np_sum _ | np_mean _ => float
  | finite_gs_energy _ _ _ | infinite_gs_energy _ _ => float
  | example_DMRG_tf_ising_finite _ _ _ => (float * obj * obj)%type
  | plt_figure | plt_imshow _ _ _ _ _ | plt_xlabel _ | plt_ylabel _
  | plt_ylim _ _ => pyval
  | plt_colorbar => obj
  | set_label _ _ | plt_savefig _ => NoneType
  | setattr_ _ _ _ | delattr_ _ _ => NoneType
  | sys_argv => list string
  | open_ _ _ => obj
  end.

(** The answer as the Python value it is, for the record of a run. *)
Definition to_pyval (q : request) : ret_type q -> pyval :=
  match q return ret_type q -> pyval with
  | print _ | import_ _ => fun _ => PyNone
  | attr_lat _ => PyObj
  | attr_N_sites _ => PyInt
  | attr_bc_MPS _ => PyStr
  | attr_chi _ => fun v => v
  | attr_evolved_time _ => PyFloat
  | TFIChain _ | mps_sites _ | MPS_from_product_state _ _ _
  | tebd_Engine _ _ _ => PyObj
  | run_GS _ | run _ => fun _ => PyNone
  | bond_energies _ _ | expectation_value _ _ => PyObj
  | correlation_length _ => PyFloat
  | entanglement_entropy _ => PyObj
  | apply_local_op _ _ _ _ => fun _ => PyNone
  | np_sum _ | np_mean _ => PyFloat
  | finite_gs_energy _ _ _ | infinite_gs_energy _ _ => PyFloat
  | example_DMRG_tf_ising_finite _ _ _ =>
      fun '(E, psi, M) => PyTuple [PyFloat E; PyObj psi; PyObj M]
  | plt_figure | plt_imshow _ _ _ _ _ | plt_xlabel _ | plt_ylabel _
  | plt_ylim _ _ => fun v => v
  | plt_colorbar => PyObj
  | set_label _ _ | plt_savefig _ => fun _ => PyNone
  | setattr_ _ _ _ | delattr_ _ _ => fun _ => PyNone
  | sys_argv => fun l => PyList (map PyStr l)
  | open_ _ _ => PyObj
  end.

Definition outcome_map {A B : Type} (f : A -> B) (r : outcome A) : outcome B :=
  match r with
  | Ok a => Ok (f a)
  | Raise x => Raise x
  end.

(** ** The monad of script programs *)

Section Programs.

(** The state of everything outside the script: the library's objects,
    the console, the file system. *)
Context {W : Type}.

(** An environment answers a request, or raises, and moves to a new
    state. *)
Definition handler : Type :=
  forall q : request, W -> outcome (ret_type q) * W.

(** One interaction, as recorded. *)
Record entry : Type := Entry {
  ev : request;
  res : outcome pyval;
  before : W;
  after : W
}.

Definition trace : Type := list entry.

(** A program runs against an environment from a state of it, and gives
    its outcome, the state it leaves and the interactions it had. *)
Definition M (A : Type) : Type := handler -> W -> outcome A * W * trace.

Definition ret {A : Type} (a : A) : M A := fun _ w => (Ok a, w, []).

Definition bind {A B : Type} (m : M A) (k : A -> M B) : M B :=
  fun h w =>
    match m h w with
    | (Ok a, w1, t1) =>
        let '(r, w2, t2) := k a h w1 in (r, w2, (t1 ++ t2)%list)
    | (Raise x, w1, t1) => (Raise x, w1, t1)
    end.

(** A partial builtin operation: its exception, if any, is raised in the
    program. *)
Definition lift {A : Type} (r : outcome A) : M A := fun _ w => (r, w, []).

Definition call (q : request) : M (ret_type q) :=
  fun h w =>
    let '(r, w') := h q w in
    (r, w', [Entry q (outcome_map (to_pyval q) r) w w']).

(** [try: m except: f].  The script has no such statement; the combinator
    shows what one would be. *)
Definition try_except {A : Type} (m : M A) (f : exn -> M A) : M A :=
  fun h w =>
    match m h w with
    | (Raise x, w1, t1) =>
        let '(r, w2, t2) := f x h w1 in (r, w2, (t1 ++ t2)%list)
    | ok => ok
    end.

(** [for i in items: s = body i s]. *)
Fixpoint for_loop {S : Type} (items : list Z) (body : Z -> S -> M S)
         (s : S) : M S :=
  match items with
  | [] => ret s
  | i :: rest => bind (body i s) (for_loop rest body)
  end.

End Programs.

Arguments handler W : clear implicits.
Arguments entry W : clear implicits.
Arguments trace W : clear implicits.
Arguments M W A : clear implicits.

(** [range(n)]. *)
Definition range (n : Z) : list Z := map Z.of_nat (seq 0 (Z.to_nat n)).

Declare Scope prog_scope.
Delimit Scope prog_scope with prog.
Notation "x <- m ;; k" := (bind m (fun x => k))
  (at level 61, m at next level, right associativity) : prog_scope.
Notation "' pat <- m ;; k" := (bind m (fun x => match x with pat => k end))
  (at level 61, pat pattern, m at next level, right associativity) : prog_scope.
Notation "m ;; k" := (bind m (fun _ => k))
  (at level 61, right associativity) : prog_scope.

(** ** The script *)

Section Script.

Context {W : Type}.
Import Float64.
Open Scope prog_scope.

(** The dictionaries [model_params] and [tebd_params] of the two
    ground-state drivers. *)
Definition finite_model_params (L : Z) (g : float) (verbose : bool)
  : dict :=
  [("L", PyInt L); ("J", PyFloat (of_Z 1)); ("g", PyFloat g);
   ("bc_MPS", PyStr "finite"); ("conserve", PyNone);
   ("verbose", PyBool verbose)].

Definition finite_tebd_params (verbose : bool) : dict :=
  [("order", PyInt 2);
   ("delta_tau_list",
    PyList [PyFloat (lit 1 10); PyFloat (lit 1 100); PyFloat (lit 1 1000);
            PyFloat (lit 1 10000); PyFloat (lit 1 100000)]);
   ("N_steps", PyInt 10);
   ("max_error_E", PyFloat (lit 1 1000000));
   ("trunc_params",
    PyDict [("chi_max", PyInt 30);
            ("svd_min", PyFloat (lit 1 10000000000))]);
   ("verbose", PyBool verbose)].

Definition infinite_model_params (g : float) (verbose : bool) : dict :=
  [("L", PyInt 2); ("J", PyFloat (of_Z 1)); ("g", PyFloat g);
   ("bc_MPS", PyStr "infinite"); ("conserve", PyNone);
   ("verbose", PyBool verbose)].

Definition infinite_tebd_params (verbose : bool) : dict :=
  [("order", PyInt 2);
   ("delta_tau_list",
    PyList [PyFloat (lit 1 10); PyFloat (lit 1 100); PyFloat (lit 1 1000);
            PyFloat (lit 1 10000); PyFloat (lit 1 100000)]);
   ("N_steps", PyInt 10);
   ("max_error_E", PyFloat (lit 1 100000000));
   ("trunc_params",
    PyDict [("chi_max", PyInt 30);
            ("svd_min", PyFloat (lit 1 10000000000))]);
   ("verbose", PyBool verbose)].

(** [abs((E - E_exact) / E_exact)], on numpy floats: no exception. *)
Definition relative_error (E E_exact : float) : float :=
  abs (div (sub E E_exact) E_exact).

Definition example_TEBD_gs_tf_ising_finite (L : Z) (g : float)
           (verbose : bool) : M W (float * obj * obj) :=
  call
    (print
       [PyStr
          "finite TEBD, imaginary time evolution, transverse field Ising"]) ;;
  call (print [PyStr ("L=" ++ format_d L ++ ", g=" ++ format_f 2 g)]) ;;
  let model_params := finite_model_params L g verbose in
  M_ <- call (TFIChain model_params) ;;
  lat <- call (attr_lat M_) ;;
  N_sites <- call (attr_N_sites lat) ;;
  let product_state := repeat "up" (Z.to_nat N_sites) in
  lat <- call (attr_lat M_) ;;
  sites <- call (mps_sites lat) ;;
  lat <- call (attr_lat M_) ;;
  bc <- call (attr_bc_MPS lat) ;;
  psi <- call (MPS_from_product_state sites product_state bc) ;;
  let tebd_params := finite_tebd_params verbose in
  eng <- call (tebd_Engine psi M_ tebd_params) ;;
  call (run_GS eng) ;;
  a <- call (bond_energies M_ psi) ;;
  E <- call (np_sum a) ;;
  call (print [PyStr ("E = " ++ format_f 13 E)]) ;;
  chi <- call (attr_chi psi) ;;
  call (print [PyStr "final bond dimensions: "; chi]) ;;
  a <- call (expectation_value psi "Sigmax") ;;
  mag_x <- call (np_sum a) ;;
  a <- call (expectation_value psi "Sigmaz") ;;
  mag_z <- call (np_sum a) ;;
  call (print [PyStr ("magnetization in X = " ++ format_f 5 mag_x)]) ;;
  call (print [PyStr ("magnetization in Z = " ++ format_f 5 mag_z)]) ;;
  (if L <? 20 then
     call (import_ "tfi_exact") ;;
     E_exact <- call (finite_gs_energy L (of_Z 1) g) ;;
     call (print [PyStr ("Exact diagonalization: E = "
                         ++ format_f 13 E_exact)]) ;;
     call (print [PyStr "relative error: ";
                  PyFloat (relative_error E E_exact)])
   else ret None_) ;;
  ret (E : float, psi : obj, M_ : obj).

Definition example_TEBD_gs_tf_ising_infinite (g : float) (verbose : bool)
  : M W (float * obj * obj) :=
  call
    (print
       [PyStr
          "infinite TEBD, imaginary time evolution, transverse field Ising"]) ;;
  call (print [PyStr ("g=" ++ format_f 2 g)]) ;;
  let model_params := infinite_model_params g verbose in
  M_ <- call (TFIChain model_params) ;;
  lat <- call (attr_lat M_) ;;
  N_sites <- call (attr_N_sites lat) ;;
  let product_state := repeat "up" (Z.to_nat N_sites) in
  lat <- call (attr_lat M_) ;;
  sites <- call (mps_sites lat) ;;
  lat <- call (attr_lat M_) ;;
  bc <- call (attr_bc_MPS lat) ;;
  psi <- call (MPS_from_product_state sites product_state bc) ;;
  let tebd_params := infinite_tebd_params verbose in
  eng <- call (tebd_Engine psi M_ tebd_params) ;;
  call (run_GS eng) ;;
  a <- call (bond_energies M_ psi) ;;
  E <- call (np_sum a) ;;
  call (print [PyStr ("E (per site) = " ++ format_f 13 E)]) ;;
  chi <- call (attr_chi psi) ;;
  call (print [PyStr "final bond dimensions: "; chi]) ;;
  a <- call (expectation_value psi "Sigmax") ;;
  mag_x <- call (np_mean a) ;;
  a <- call (expectation_value psi "Sigmaz") ;;
  mag_z <- call (np_mean a) ;;
  call (print [PyStr ("<sigma_x> = " ++ format_f 5 mag_x)]) ;;
  call (print [PyStr ("<sigma_z> = " ++ format_f 5 mag_z)]) ;;
  xi <- call (correlation_length psi) ;;
  call (print [PyStr "correlation length:"; PyFloat xi]) ;;
  call (import_ "tfi_exact") ;;
  E_exact <- call (infinite_gs_energy (of_Z 1) g) ;;
  call (print [PyStr ("Analytic result: E (per site) = "
                      ++ format_f 13 E_exact)]) ;;
  call (print [PyStr "relative error: ";
               PyFloat (relative_error E E_exact)]) ;;
  ret (E : float, psi : obj, M_ : obj).

Definition dt_measure : float := lit 5 100.

(** The dictionary of engine parameters of the light-cone driver. *)
Definition lightcone_tebd_params (dt : float) (N_steps : Z)
           (verbose : bool) : dict :=
  [("order", PyInt 2);
   ("dt", PyFloat dt);
   ("N_steps", PyInt N_steps);
   ("trunc_params",
    PyDict [("chi_max", PyInt 50);
            ("svd_min", PyFloat (lit 1 10000000000));
            ("trunc_cut", PyNone)]);
   ("verbose", PyBool verbose)].

(** [int(dt_measure // dt)]. *)
Definition lightcone_N_steps (dt : float) : outcome Z :=
  match floordiv dt_measure dt with
  | Ok q => to_int q
  | Raise x => Raise x
  end.

(** [int(tmax / dt_measure + 0.5)]. *)
Definition lightcone_N (tmax : float) : outcome Z :=
  match truediv tmax dt_measure with
  | Ok q => to_int (add q (lit 1 2))
  | Raise x => Raise x
  end.

Definition lightcone_filename (g : float) : string :=
  "c_tebd_lightcone_" ++ format_f 2 g ++ ".pdf".

Definition example_TEBD_tf_ising_lightcone (L : Z) (g tmax dt : float)
           (verbose : bool) : M W NoneType :=
  call (print [PyStr "finite TEBD, real time evolution"]) ;;
  call (print [PyStr ("L=" ++ format_d L ++ ", g=" ++ format_f 2 g
                      ++ ", tmax=" ++ format_f 2 tmax
                      ++ ", dt=" ++ format_f 3 dt)]) ;;
  call (import_ "d_dmrg") ;;
  call (print [PyStr "(run DMRG to get the groundstate)"]) ;;
  '(E, psi, M_) <- call (example_DMRG_tf_ising_finite L g false) ;;
  call (print [PyStr "(DMRG finished)"]) ;;
  let i0 := L / 2 in
  call (apply_local_op psi i0 "Sigmaz" true) ;;
  N_steps <- lift (lightcone_N_steps dt) ;;
  let tebd_params := lightcone_tebd_params dt N_steps verbose in
  eng <- call (tebd_Engine psi M_ tebd_params) ;;
  s0 <- call (entanglement_entropy psi) ;;
  N <- lift (lightcone_N tmax) ;;
  S <- for_loop (range N)
         (fun n S =>
            call (run eng) ;;
            s <- call (entanglement_entropy psi) ;;
            ret (S ++ [s : obj])%list)
         [s0 : obj] ;;
  call (import_ "matplotlib.pyplot") ;;
  call plt_figure ;;
  Lf <- lift (of_int L) ;;
  t <- call (attr_evolved_time eng) ;;
  call (plt_imshow (rev S) (of_Z 0) "auto" "nearest"
          (PyTuple [PyInt 0; PyFloat (sub Lf (of_Z 1));
                    PyFloat (mul (lit (-1) 2) dt_measure);
                    PyFloat (add t (mul (lit 1 2) dt_measure))])) ;;
  call (plt_xlabel "site $i$") ;;
  call (plt_ylabel "time $t/J$") ;;
  call (plt_ylim (of_Z 0) tmax) ;;
  cb <- call plt_colorbar ;;
  call (set_label cb "entropy $S$") ;;
  let filename := lightcone_filename g in
  call (plt_savefig filename) ;;
  call (print [PyStr ("saved " ++ filename)]) ;;
  ret None_.

(** The block under [if __name__ == "__main__"]. *)
Definition main : M W NoneType :=
  example_TEBD_gs_tf_ising_finite 10 (of_Z 1) true ;;
  call (print [PyStr (str_repeat "-" 100)]) ;;
  example_TEBD_gs_tf_ising_infinite (lit 15 10) true ;;
  call (print [PyStr (str_repeat "-" 100)]) ;;
  example_TEBD_tf_ising_lightcone 20 (lit 15 10) (of_Z 3) (lit 1 100) true.

End Script.

(** ** Environments *)

(** A stub environment for running the programs: its state counts the
    objects handed out, every call succeeds, a lattice has two sites and
    every measured number is one. *)
Definition stub_answer (q : request) (next : nat) : ret_type q :=
  match q return ret_type q with
  | print _ | import_ _ => None_
  | attr_lat _ => Obj next
  | attr_N_sites _ => 2
  | attr_bc_MPS _ => "finite"
  | attr_chi _ => PyList [PyInt 1]
  | attr_evolved_time _ => Float64.of_Z 0
  | TFIChain _ | mps_sites _ | MPS_from_product_state _ _ _
  | tebd_Engine _ _ _ => Obj next
  | run_GS _ | run _ => None_
  | bond_energies _ _ | expectation_value _ _ => Obj next
  | correlation_length _ => Float64.of_Z 1
  | entanglement_entropy _ => Obj next
  | apply_local_op _ _ _ _ => None_
  | np_sum _ | np_mean _ => Float64.of_Z 1
  | finite_gs_energy _ _ _ | infinite_gs_energy _ _ => Float64.of_Z 1
  | example_DMRG_tf_ising_finite _ _ _ =>
      (Float64.of_Z 1, Obj next, Obj (S next))
  | plt_figure | plt_imshow _ _ _ _ _ | plt_xlabel _ | plt_ylabel _
  | plt_ylim _ _ => PyNone
  | plt_colorbar => Obj next
  | set_label _ _ | plt_savefig _ => None_
  | setattr_ _ _ _ | delattr_ _ _ => None_
  | sys_argv => []
  | open_ _ _ => Obj next
  end.

Definition stub_env : handler nat :=
  fun q next => (Ok (stub_answer q next), (next + 2)%nat).

(** A stub environment in which one operation fails: the [n]-th request
    (counting from zero) raises. *)
Definition failing_env (n : nat) : handler nat :=
  fun q k =>
    if Nat.eqb k n then (Raise (LibraryError "failure"), S k)
    else (Ok (stub_answer q k), S k).

Section EngineClock.

Context {W : Type}.

(** What the model keeps of an engine: the parameters it was made with
    and its evolved time. *)
Record engine_state : Type := EngineState {
  TEBD_params : dict;
  evolved_time : float
}.

Definition engines : Type := list (nat * engine_state).

Fixpoint find_engine (id : nat) (es : engines) : option engine_state :=
  match es with
  | [] => None
  | (id', st) :: es' => if Nat.eqb id id' then Some st else find_engine id es'
  end.

Fixpoint set_engine (id : nat) (st : engine_state) (es : engines)
  : engines :=
  match es with
  | [] => [(id, st)]
  | (id', st') :: es' =>
      if Nat.eqb id id' then (id, st) :: es'
      else (id', st') :: set_engine id st es'
  end.

Definition clock (es : engines) (eng : obj) : option float :=
  let 'Obj id := eng in
  option_map evolved_time (find_engine id es).

(** What one [run()] adds to the evolved time: [N_steps * dt], both read
    from the engine's parameters. *)
Definition run_increment (p : dict) : option (outcome float) :=
  match dict_get p "N_steps", dict_get p "dt" with
  | Some (PyInt n), Some (PyFloat dt) =>
      Some (outcome_map (fun x => Float64.mul x dt) (Float64.of_int n))
  | _, _ => None
  end.

(** Modelled from the spec: the engine class [tenpy.algorithms.tebd.Engine]
    is not among the sources.  The spec describes it as an engine object
    with [run] and [run_GS] methods that advances real time, and the
    source says that it "makes 'N_steps' steps of `dt` at once".  The
    model adds to any environment the evolved time of each engine: zero
    when the engine is made, advanced by [N_steps * dt] by each [run()]
    that succeeds, and read by [eng.evolved_time].  Everything else is
    left to the underlying environment. *)
Definition with_engine_clock (h : handler W) : handler (W * engines) :=
  fun q '(w, es) =>
    match q return outcome (ret_type q) * (W * engines) with
    | tebd_Engine psi M_ p =>
        match h (tebd_Engine psi M_ p) w with
        | (Ok (Obj id), w') =>
            (Ok (Obj id),
             (w', set_engine id (EngineState p (Float64.of_Z 0)) es))
        | (Raise x, w') => (Raise x, (w', es))
        end
    | run (Obj id) =>
        match h (run (Obj id)) w with
        | (Ok _, w') =>
            match find_engine id es with
            | Some st =>
                match run_increment (TEBD_params st) with
                | Some (Ok step) =>
                    (Ok None_,
                     (w', set_engine id
                            (EngineState (TEBD_params st)
                               (Float64.add (evolved_time st) step)) es))
                | Some (Raise x) => (Raise x, (w', es))
                | None => (Ok None_, (w', es))
                end
            | None => (Ok None_, (w', es))
            end
        | (Raise x, w') => (Raise x, (w', es))
        end
    | attr_evolved_time (Obj id) =>
        match find_engine id es with
        | Some st => (Ok (evolved_time st), (w, es))
        | None =>
            let '(r, w') := h (attr_evolved_time (Obj id)) w in (r, (w', es))
        end
    | q' => let '(r, w') := h q' w in (r, (w', es))
    end.

(** What the claim on time steps says of one recorded request: if it is a
    [run()] that succeeded, the evolved time of its engine went from some
    [time] to [time + step]. *)
Definition advances_by (step : float) (e : entry (W * engines)) : Prop :=
  forall eng,
    ev e = run eng -> res e = Ok PyNone ->
    exists time,
      clock (snd (before e)) eng = Some time
      /\ clock (snd (after e)) eng = Some (Float64.add time step).

(** Requests that the model passes on leave the engines as they are. *)
Definition clock_neutral (q : request) : bool :=
  match q with
  | tebd_Engine _ _ _ | run _ => false
  | _ => true
  end.

End EngineClock.

(** ** The entry points, as a caller sees them *)

Inductive entry_point : Type :=
| Finite (L : Z) (g : float) (verbose : bool)
| Infinite (g : float) (verbose : bool)
| Lightcone (L : Z) (g tmax dt : float) (verbose : bool)
| Main.

Definition triple_value (r : float * obj * obj) : pyval :=
  let '(E, psi, M_) := r in PyTuple [PyFloat E; PyObj psi; PyObj M_].

(** Calling an entry point gives a Python value: the triple of a
    ground-state driver, [None] for the others. *)
Definition invoke {W : Type} (f : entry_point) : M W pyval :=
  match f with
  | Finite L g verbose =>
      bind (example_TEBD_gs_tf_ising_finite L g verbose)
           (fun r => ret (triple_value r))
  | Infinite g verbose =>
      bind (example_TEBD_gs_tf_ising_infinite g verbose)
           (fun r => ret (triple_value r))
  | Lightcone L g tmax dt verbose =>
      bind (example_TEBD_tf_ising_lightcone L g tmax dt verbose)
           (fun _ => ret PyNone)
  | Main => bind main (fun _ => ret PyNone)
  end.

(** ** Properties of requests and of records *)

(** Direct writes to an object: [o.name = v] and [del o.name]. *)
Definition is_attr_write (q : request) : bool :=
  match q with
  | setattr_ _ _ _ | delattr_ _ _ => true
  | _ => false
  end.

(** Reads of the command line or of a file. *)
Definition is_process_input (q : request) : bool :=
  match q with
  | sys_argv | open_ _ _ => true
  | _ => false
  end.


(** The DMRG routine is not asked to be verbose. *)
Definition dmrg_quiet (q : request) : bool :=
  match q with
  | example_DMRG_tf_ising_finite _ _ verbose => negb verbose
  | _ => true
  end.

(** The exact or analytic reference energy is asked for. *)
Definition is_finite_gs_energy (q : request) : bool :=
  match q with
  | finite_gs_energy _ _ _ => true
  | _ => false
  end.

(** The print of the relative error. *)
Definition is_relative_error_print (q : request) : bool :=
  match q with
  | print (PyStr s :: _) => String.eqb s "relative error: "
  | _ => false
  end.

Definition is_ok {A : Type} (r : outcome A) : bool :=
  match r with
  | Ok _ => true
  | Raise _ => false
  end.

(** A request without the ['verbose'] entry of an engine's parameters. *)
Fixpoint dict_remove (d : dict) (k : string) : dict :=
  match d with
  | [] => []
  | (k', v) :: d' =>
      if String.eqb k k' then dict_remove d' k else (k', v) :: dict_remove d' k
  end.

Definition forget_engine_verbose (q : request) : request :=
  match q with
  | tebd_Engine psi M_ p => tebd_Engine psi M_ (dict_remove p "verbose")
  | q' => q'
  end.

(** The transcript of the measurement loop of the light-cone driver: one
    [run()] and one entropy per interval. *)
Definition loop_transcript (eng psi : obj) (ss : list obj)
  : list (request * outcome pyval) :=
  flat_map (fun s => [(run eng, Ok PyNone);
                      (entanglement_entropy psi, Ok (PyObj s))]) ss.


Section Records.

Context {W : Type}.

Definition requests (t : trace W) : list request := map ev t.

Definition transcript (t : trace W) : list (request * outcome pyval) :=
  map (fun e => (ev e, res e)) t.

(** No request of the record raised. *)
Definition clean (t : trace W) : Prop :=
  Forall (fun e => is_ok (res e) = true) t.

(** The record is one chain of states from [w] to [w']: each request
    starts where the one before ended. *)
Fixpoint linked (w : W) (t : trace W) (w' : W) : Prop :=
  match t with
  | [] => w = w'
  | e :: t' => before e = w /\ linked (after e) t' w'
  end.

(** A request that raised is the last of the record, and its exception is
    the outcome. *)
Fixpoint raises_last {A : Type} (t : trace W) (r : outcome A) : Prop :=
  match t with
  | [] => True
  | e :: t' =>
      match res e with
      | Ok _ => raises_last t' r
      | Raise x => t' = [] /\ r = Raise x
      end
  end.


Definition forget_verbose (e : entry W) : entry W :=
  Entry (forget_engine_verbose (ev e)) (res e) (before e) (after e).

(** Programs made of [ret], builtin operations, requests that satisfy
    [P], sequencing and [for] loops: no [try], and no access to the
    state of the environment other than through requests. *)
Inductive straight (P : request -> Prop) : forall A : Type, M W A -> Prop :=
| straight_ret : forall A (a : A), straight P A (ret a)
| straight_lift : forall A (r : outcome A), straight P A (lift r)
| straight_call : forall q, P q -> straight P (ret_type q) (call q)
| straight_bind : forall A B (m : M W A) (k : A -> M W B),
    straight P A m -> (forall a, straight P B (k a)) ->
    straight P B (bind m k)
| straight_for : forall S items (body : Z -> S -> M W S) (s : S),
    (forall i s', straight P S (body i s')) ->
    straight P S (for_loop items body s).

(** In the record [t], the model [M_] is the one that was built, [psi] the
    state that was made and handed to the engine, and [E] the answer to
    [np.sum(M_.bond_energies(psi))], asked right after [run_GS()]. *)
Definition energy_state_model (t : trace W) (E : float) (psi M_ : obj)
  : Prop :=
  exists pre model_params mid sites p_state bc tebd_params eng a post,
    transcript t =
      (pre ++ [(TFIChain model_params, Ok (PyObj M_))]
       ++ mid
       ++ [(MPS_from_product_state sites p_state bc, Ok (PyObj psi));
           (tebd_Engine psi M_ tebd_params, Ok (PyObj eng));
           (run_GS eng, Ok PyNone);
           (bond_energies M_ psi, Ok (PyObj a));
           (np_sum a, Ok (PyFloat E))]
       ++ post)%list.

(** An environment that answers alike whatever the ['verbose'] entry of
    the parameters of an engine. *)
Definition engine_ignores_verbose (h : handler W) : Prop :=
  forall psi M_ p w,
    h (tebd_Engine psi M_ p) w
    = h (tebd_Engine psi M_ (dict_remove p "verbose")) w.

(** What every run of a program [m] guarantees about its record. *)
Definition obeys (P : request -> Prop) {A : Type} (m : M W A) : Prop :=
  forall h w,
    Forall (fun e => P (ev e)) (snd (m h w))
    /\ linked w (snd (m h w)) (snd (fst (m h w)))
    /\ raises_last (snd (m h w)) (fst (fst (m h w))).


(** Two programs that give the same outcome and, up to the ['verbose']
    entry of an engine's parameters, have the same record, in every
    environment that ignores this entry. *)
Definition same_but_engine_verbose {A : Type} (m1 m2 : M W A) : Prop :=
  forall h, engine_ignores_verbose h ->
  forall w,
    fst (m1 h w) = fst (m2 h w)
    /\ map forget_verbose (snd (m1 h w))
       = map forget_verbose (snd (m2 h w)).

(** A program that returns whenever no request of its run raised. *)
Definition dependable {A : Type} (m : M W A) : Prop :=
  forall h w, clean (snd (m h w)) -> is_ok (fst (fst (m h w))) = true.

End Records.

Arguments straight {W} P {A} m.

(** Every request the script can make, whatever its arguments. *)
Definition script_request (q : request) : Prop :=
  is_attr_write q = false /\ is_process_input q = false
  /\ dmrg_quiet q = true.

(** ** Orders of requests *)

(** The measurements of a state that the ground-state drivers ask for. *)
Definition is_measurement (q : request) : bool :=
  match q with
  | bond_energies _ _ | expectation_value _ _ | attr_chi _
  | correlation_length _ => true
  | _ => false
  end.

(** One step of the order of a ground-state driver.  The state says
    whether [run_GS()] has succeeded: a measurement is allowed only then,
    [run_GS()] only once, and the real-time requests of the light-cone
    driver never. *)
Definition search_step (searched : bool) (q : request) (r : outcome pyval)
  : option bool :=
  match q with
  | run_GS _ => if searched then None else Some (is_ok r)
  | run _ | apply_local_op _ _ _ _ | entanglement_entropy _
  | example_DMRG_tf_ising_finite _ _ _ => None
  | _ => if is_measurement q && negb searched then None else Some searched
  end.

(** One step of the order of the light-cone driver.  The phases are: 0 at
    the start, 1 once the DMRG routine has returned, 2 once the local
    operator has been applied, 3 once the engine has been made. *)
Definition lightcone_step (phase : nat) (q : request) (r : outcome pyval)
  : option nat :=
  match q with
  | example_DMRG_tf_ising_finite _ _ _ =>
      if Nat.eqb phase 0 then Some (if is_ok r then 1 else 0)%nat else None
  | apply_local_op _ _ _ _ =>
      if Nat.eqb phase 1 then Some (if is_ok r then 2 else 1)%nat else None
  | tebd_Engine _ _ _ =>
      if Nat.eqb phase 2 then Some (if is_ok r then 3 else 2)%nat else None
  | run _ | entanglement_entropy _ | attr_evolved_time _
  | plt_figure | plt_imshow _ _ _ _ _ | plt_xlabel _ | plt_ylabel _
  | plt_ylim _ _ | plt_colorbar | set_label _ _ | plt_savefig _ =>
      if Nat.eqb phase 3 then Some phase else None
  | print _ | import_ _ => Some phase
  | _ => None
  end.

(** The requests of the light-cone driver that use the engine or plot. *)
Definition is_late (q : request) : bool :=
  match q with
  | run _ | entanglement_entropy _ | attr_evolved_time _
  | plt_figure | plt_imshow _ _ _ _ _ | plt_xlabel _ | plt_ylabel _
  | plt_ylim _ _ | plt_colorbar | set_label _ _ | plt_savefig _ => true
  | _ => false
  end.

Section Monitors.

Context {W S : Type}.
Variable step : S -> request -> outcome pyval -> option S.

(** The state of a monitor after a transcript; [None] when a request came
    out of order. *)
Fixpoint monitor (s : S) (tr : list (request * outcome pyval)) : option S :=
  match tr with
  | [] => Some s
  | (q, r) :: tr' =>
      match step s q r with
      | Some s' => monitor s' tr'
      | None => None
      end
  end.

(** Every run of [m] from the monitor state [s] is in order, and a run that
    returns ends in the state [s']. *)
Definition tracks (s : S) {A : Type} (m : M W A) (s' : S) : Prop :=
  forall h w,
  exists s1,
    monitor s (transcript (snd (m h w))) = Some s1
    /\ (is_ok (fst (fst (m h w))) = true -> s1 = s').

End Monitors.

(** ** The ['verbose'] entries *)

Definition forget_any_verbose (q : request) : request :=
  match q with
  | TFIChain p => TFIChain (dict_remove p "verbose")
  | tebd_Engine psi M_ p => tebd_Engine psi M_ (dict_remove p "verbose")
  | q' => q'
  end.

Section Verbose.

Context {W : Type}.

(** An environment whose model and engine constructors answer alike
    whatever the ['verbose'] entry of their parameters. *)
Definition ignores_verbose (h : handler W) : Prop :=
  (forall p w,
      h (TFIChain p) w = h (TFIChain (dict_remove p "verbose")) w)
  /\ engine_ignores_verbose h.

Definition forget_verbosity (e : entry W) : entry W :=
  Entry (forget_any_verbose (ev e)) (res e) (before e) (after e).

Definition same_but_verbose {A : Type} (m1 m2 : M W A) : Prop :=
  forall h, ignores_verbose h ->
  forall w,
    fst (m1 h w) = fst (m2 h w)
    /\ map forget_verbosity (snd (m1 h w))
       = map forget_verbosity (snd (m2 h w)).

(** No request of the record raised, as a test. *)
Definition cleanb (t : trace W) : bool :=
  forallb (fun e => is_ok (res e)) t.

End Verbose.

(** * Proofs *)

(** ** Records of straight programs *)

Section StraightPrograms.

Context {W : Type}.

Lemma linked_app (w w1 w2 : W) (t1 t2 : trace W) :
  linked w t1 w1 -> linked w1 t2 w2 -> linked w (t1 ++ t2)%list w2.
Proof.
  revert w; induction t1 as [|e t1 IH]; simpl; intros w H1 H2.
  - now subst.
  - destruct H1 as [Hb H1]; split; [assumption | now apply IH].
Qed.

Lemma linked_last (w w' : W) (pre : trace W) (e : entry W) :
  linked w (pre ++ [e])%list w' -> w' = after e.
Proof.
  revert w; induction pre as [|e0 pre IH]; simpl; intros w H.
  - now destruct H as [_ ->].
  - destruct H as [_ H]; now apply IH in H.
Qed.

Lemma raises_last_app {A B : Type} (a : A) (r : outcome B)
      (t1 t2 : trace W) :
  raises_last t1 (Ok a) -> raises_last t2 r ->
  raises_last (t1 ++ t2)%list r.
Proof.
  induction t1 as [|e t1 IH]; simpl; intros H1 H2; [assumption|].
  destruct (res e).
  - now apply IH.
  - destruct H1 as [_ H1]; discriminate H1.
Qed.

Lemma raises_last_split {A : Type} (r : outcome A) (pre post : trace W)
      (e : entry W) (x : exn) :
  raises_last (pre ++ e :: post)%list r -> res e = Raise x ->
  post = [] /\ r = Raise x.
Proof.
  induction pre as [|e0 pre IH]; simpl; intros H Hx.
  - now rewrite Hx in H.
  - destruct (res e0).
    + now apply IH.
    + destruct H as [H _]. now destruct pre.
Qed.

Lemma raises_last_retype {A B : Type} (x : exn) (t : trace W) :
  raises_last t (@Raise A x) -> raises_last t (@Raise B x).
Proof.
  induction t as [|e t IH]; simpl; [trivial|].
  destruct (res e).
  - exact IH.
  - intros [-> H]; split; [reflexivity | congruence].
Qed.

Lemma obeys_bind (P : request -> Prop) {A B : Type} (m : M W A)
      (k : A -> M W B) :
  obeys P m -> (forall a, obeys P (k a)) -> obeys P (bind m k).
Proof.
  intros Hm Hk h w. unfold bind.
  specialize (Hm h w). destruct (m h w) as [[[a|x] w1] t1]; simpl in *.
  - specialize (Hk a h w1). destruct (k a h w1) as [[r w2] t2]; simpl in *.
    destruct Hm as (F1 & L1 & R1), Hk as (F2 & L2 & R2).
    repeat split.
    + apply Forall_app; now split.
    + now apply linked_app with w1.
    + now apply raises_last_app with a.
  - destruct Hm as (F1 & L1 & R1); repeat split; try assumption.
    now apply (raises_last_retype (A:=A)).
Qed.

Lemma obeys_call (P : request -> Prop) (q : request) :
  P q -> obeys (W:=W) P (call q).
Proof.
  intros Hq h w. unfold call. destruct (h q w) as [r w']; simpl.
  repeat split.
  - constructor; [exact Hq | constructor].
  - destruct r; simpl; auto.
Qed.

Lemma obeys_for (P : request -> Prop) {S : Type} (items : list Z)
      (body : Z -> S -> M W S) (s : S) :
  (forall i s', obeys P (body i s')) -> obeys P (for_loop items body s).
Proof.
  intros Hb. revert s; induction items as [|i items IH]; intros s; simpl.
  - intros h w; simpl; repeat split; constructor.
  - apply obeys_bind; [apply Hb | exact IH].
Qed.

Lemma straight_obeys (P : request -> Prop) {A : Type} (m : M W A) :
  straight P m -> obeys P m.
Proof.
  induction 1.
  - intros h w; simpl; repeat split; constructor.
  - intros h w; simpl; repeat split; constructor.
  - now apply obeys_call.
  - now apply obeys_bind.
  - now apply obeys_for.
Qed.

End StraightPrograms.

Ltac straighten :=
  repeat first
    [ apply straight_ret
    | apply straight_lift
    | apply straight_call
    | apply straight_for; intros
    | apply straight_bind; [|intros]
    | match goal with
      | |- straight _ (if ?b then _ else _) => destruct b
      | |- straight _ (match ?x with (_, _) => _ end) => destruct x
      end ].

Section ScriptIsStraight.

Context {W : Type}.

Lemma finite_straight (L : Z) (g : float) (verbose : bool) :
  straight script_request
           (@example_TEBD_gs_tf_ising_finite W L g verbose).
Proof.
  unfold example_TEBD_gs_tf_ising_finite.
  straighten; repeat split.
Qed.

Lemma infinite_straight (g : float) (verbose : bool) :
  straight script_request
           (@example_TEBD_gs_tf_ising_infinite W g verbose).
Proof.
  unfold example_TEBD_gs_tf_ising_infinite.
  straighten; repeat split.
Qed.

Lemma lightcone_straight (L : Z) (g tmax dt : float) (verbose : bool) :
  straight script_request
           (@example_TEBD_tf_ising_lightcone W L g tmax dt verbose).
Proof.
  unfold example_TEBD_tf_ising_lightcone.
  straighten; repeat split.
Qed.

Lemma main_straight : straight script_request (@main W).
Proof.
  unfold main.
  repeat first
    [ apply finite_straight
    | apply infinite_straight
    | apply lightcone_straight
    | apply straight_call; repeat split
    | apply straight_bind; [|intros] ].
Qed.

Lemma invoke_straight (f : entry_point) :
  straight script_request (@invoke W f).
Proof.
  destruct f; simpl;
    (apply straight_bind; [|intros; apply straight_ret]).
  - apply finite_straight.
  - apply infinite_straight.
  - apply lightcone_straight.
  - apply main_straight.
Qed.

End ScriptIsStraight.

(** ** The transcript of a run that returns *)

(** Symbolic execution of a run [H : m h w = (Ok _, _, _)]: every request
    on the way was answered. *)
Ltac forward H h :=
  repeat match type of H with
         | context [h ?q ?w] =>
             let E := fresh "E" in
             destruct (h q w) as [[?|?] ?] eqn:E; cbv beta iota in H;
             [|discriminate H]
         end.

Section Transcripts.

Context {W : Type}.
Import Float64.

Lemma transcript_app (t1 t2 : trace W) :
  transcript (t1 ++ t2)%list = (transcript t1 ++ transcript t2)%list.
Proof. apply map_app. Qed.

Lemma bind_ok {A B : Type} (m : M W A) (k : A -> M W B) (h : handler W)
      (w w' : W) (b : B) (t : trace W) :
  bind m k h w = (Ok b, w', t) ->
  exists a w1 t1 t2,
    m h w = (Ok a, w1, t1) /\ k a h w1 = (Ok b, w', t2)
    /\ t = (t1 ++ t2)%list.
Proof.
  unfold bind. destruct (m h w) as [[[a|x] w1] t1]; [|discriminate].
  destruct (k a h w1) as [[r w2] t2] eqn:Ek.
  intros H; injection H as -> -> <-.
  now exists a, w1, t1, t2.
Qed.

Lemma lightcone_loop_transcript (h : handler W) (eng psi : obj)
      (items : list Z) (S0 S : list obj) (w w' : W) (t : trace W) :
  for_loop items
    (fun _ S => bind (call (run eng)) (fun _ =>
                bind (call (entanglement_entropy psi)) (fun s =>
                ret (S ++ [s : obj])%list)))
    S0 h w = (Ok S, w', t) ->
  exists ss, S = (S0 ++ ss)%list /\ List.length ss = List.length items
             /\ transcript t = loop_transcript eng psi ss.
Proof.
  revert S0 w t. induction items as [|i items IH]; intros S0 w t H.
  - injection H as <- <- <-. exists []. now rewrite app_nil_r.
  - simpl in H. apply bind_ok in H.
    destruct H as (S1 & w1 & t1 & t2 & Ebody & Erest & ->).
    apply IH in Erest. destruct Erest as (ss & -> & Hlen & Ht2).
    cbv [bind call ret] in Ebody. forward Ebody h.
    injection Ebody as <- <- <-.
    eexists (_ :: ss). split; [now rewrite <- app_assoc|].
    split; [simpl; now rewrite Hlen|].
    rewrite transcript_app, Ht2. reflexivity.
Qed.

Lemma finite_transcript (h : handler W) (w w' : W) (t : trace W)
      (L : Z) (g : float) (verbose : bool) (E : float) (psi M_ : obj) :
  example_TEBD_gs_tf_ising_finite L g verbose h w = (Ok (E, psi, M_), w', t) ->
  exists lat1 N_sites lat2 sites lat3 bc eng a chi ax mag_x az mag_z E_exact,
    transcript t =
      ([(print
           [PyStr
              "finite TEBD, imaginary time evolution, transverse field Ising"],
         Ok PyNone);
        (print [PyStr ("L=" ++ format_d L ++ ", g=" ++ format_f 2 g)],
         Ok PyNone);
        (TFIChain (finite_model_params L g verbose), Ok (PyObj M_));
        (attr_lat M_, Ok (PyObj lat1));
        (attr_N_sites lat1, Ok (PyInt N_sites));
        (attr_lat M_, Ok (PyObj lat2));
        (mps_sites lat2, Ok (PyObj sites));
        (attr_lat M_, Ok (PyObj lat3));
        (attr_bc_MPS lat3, Ok (PyStr bc));
        (MPS_from_product_state sites (repeat "up" (Z.to_nat N_sites)) bc,
         Ok (PyObj psi));
        (tebd_Engine psi M_ (finite_tebd_params verbose), Ok (PyObj eng));
        (run_GS eng, Ok PyNone);
        (bond_energies M_ psi, Ok (PyObj a));
        (np_sum a, Ok (PyFloat E));
        (print [PyStr ("E = " ++ format_f 13 E)], Ok PyNone);
        (attr_chi psi, Ok chi);
        (print [PyStr "final bond dimensions: "; chi], Ok PyNone);
        (expectation_value psi "Sigmax", Ok (PyObj ax));
        (np_sum ax, Ok (PyFloat mag_x));
        (expectation_value psi "Sigmaz", Ok (PyObj az));
        (np_sum az, Ok (PyFloat mag_z));
        (print [PyStr ("magnetization in X = " ++ format_f 5 mag_x)],
         Ok PyNone);
        (print [PyStr ("magnetization in Z = " ++ format_f 5 mag_z)],
         Ok PyNone)]
       ++ (if L <? 20 then
             [(import_ "tfi_exact", Ok PyNone);
              (finite_gs_energy L (of_Z 1) g, Ok (PyFloat E_exact));
              (print [PyStr ("Exact diagonalization: E = "
                             ++ format_f 13 E_exact)], Ok PyNone);
              (print [PyStr "relative error: ";
                      PyFloat (relative_error E E_exact)], Ok PyNone)]
           else []))%list.
Proof.
  intros H. unfold example_TEBD_gs_tf_ising_finite in H.
  cbv [bind call ret] in H.
  forward H h.
  destruct (L <? 20); cbv beta iota in H; forward H h;
    injection H as <- <- <- <- <-.
  - do 14 eexists; reflexivity.
  - do 13 eexists; exists (of_Z 0); reflexivity.
Qed.

Lemma infinite_transcript (h : handler W) (w w' : W) (t : trace W)
      (g : float) (verbose : bool) (E : float) (psi M_ : obj) :
  example_TEBD_gs_tf_ising_infinite g verbose h w = (Ok (E, psi, M_), w', t) ->
  exists lat1 N_sites lat2 sites lat3 bc eng a chi ax mag_x az mag_z xi
         E_exact,
    transcript t =
      [(print
          [PyStr
             "infinite TEBD, imaginary time evolution, transverse field Ising"],
        Ok PyNone);
       (print [PyStr ("g=" ++ format_f 2 g)], Ok PyNone);
       (TFIChain (infinite_model_params g verbose), Ok (PyObj M_));
       (attr_lat M_, Ok (PyObj lat1));
       (attr_N_sites lat1, Ok (PyInt N_sites));
       (attr_lat M_, Ok (PyObj lat2));
       (mps_sites lat2, Ok (PyObj sites));
       (attr_lat M_, Ok (PyObj lat3));
       (attr_bc_MPS lat3, Ok (PyStr bc));
       (MPS_from_product_state sites (repeat "up" (Z.to_nat N_sites)) bc,
        Ok (PyObj psi));
       (tebd_Engine psi M_ (infinite_tebd_params verbose), Ok (PyObj eng));
       (run_GS eng, Ok PyNone);
       (bond_energies M_ psi, Ok (PyObj a));
       (np_sum a, Ok (PyFloat E));
       (print [PyStr ("E (per site) = " ++ format_f 13 E)], Ok PyNone);
       (attr_chi psi, Ok chi);
       (print [PyStr "final bond dimensions: "; chi], Ok PyNone);
       (expectation_value psi "Sigmax", Ok (PyObj ax));
       (np_mean ax, Ok (PyFloat mag_x));
       (expectation_value psi "Sigmaz", Ok (PyObj az));
       (np_mean az, Ok (PyFloat mag_z));
       (print [PyStr ("<sigma_x> = " ++ format_f 5 mag_x)], Ok PyNone);
       (print [PyStr ("<sigma_z> = " ++ format_f 5 mag_z)], Ok PyNone);
       (correlation_length psi, Ok (PyFloat xi));
       (print [PyStr "correlation length:"; PyFloat xi], Ok PyNone);
       (import_ "tfi_exact", Ok PyNone);
       (infinite_gs_energy (of_Z 1) g, Ok (PyFloat E_exact));
       (print [PyStr ("Analytic result: E (per site) = "
                      ++ format_f 13 E_exact)], Ok PyNone);
       (print [PyStr "relative error: ";
               PyFloat (relative_error E E_exact)], Ok PyNone)].
Proof.
  intros H. unfold example_TEBD_gs_tf_ising_infinite in H.
  cbv [bind call ret] in H.
  forward H h.
  injection H as <- <- <- <- <-.
  do 15 eexists; reflexivity.
Qed.

Lemma length_range (n : Z) : List.length (range n) = Z.to_nat n.
Proof. unfold range. now rewrite length_map, length_seq. Qed.

Lemma lightcone_transcript (h : handler W) (w w' : W) (t : trace W)
      (L : Z) (g tmax dt : float) (verbose : bool) (r : NoneType) :
  example_TEBD_tf_ising_lightcone L g tmax dt verbose h w = (Ok r, w', t) ->
  exists E psi M_ N_steps eng s0 N ss fig Lf time im xl yl lim cb,
    lightcone_N_steps dt = Ok N_steps
    /\ lightcone_N tmax = Ok N
    /\ of_int L = Ok Lf
    /\ List.length ss = Z.to_nat N
    /\ transcript t =
        ([(print [PyStr "finite TEBD, real time evolution"], Ok PyNone);
          (print [PyStr ("L=" ++ format_d L ++ ", g=" ++ format_f 2 g
                         ++ ", tmax=" ++ format_f 2 tmax
                         ++ ", dt=" ++ format_f 3 dt)], Ok PyNone);
          (import_ "d_dmrg", Ok PyNone);
          (print [PyStr "(run DMRG to get the groundstate)"], Ok PyNone);
          (example_DMRG_tf_ising_finite L g false,
           Ok (PyTuple [PyFloat E; PyObj psi; PyObj M_]));
          (print [PyStr "(DMRG finished)"], Ok PyNone);
          (apply_local_op psi (L / 2) "Sigmaz" true, Ok PyNone);
          (tebd_Engine psi M_ (lightcone_tebd_params dt N_steps verbose),
           Ok (PyObj eng));
          (entanglement_entropy psi, Ok (PyObj s0))]
         ++ loop_transcript eng psi ss
         ++ [(import_ "matplotlib.pyplot", Ok PyNone);
             (plt_figure, Ok fig);
             (attr_evolved_time eng, Ok (PyFloat time));
             (plt_imshow (rev (s0 :: ss)) (of_Z 0) "auto" "nearest"
                (PyTuple [PyInt 0; PyFloat (sub Lf (of_Z 1));
                          PyFloat (mul (lit (-1) 2) dt_measure);
                          PyFloat (add time (mul (lit 1 2) dt_measure))]),
              Ok im);
             (plt_xlabel "site $i$", Ok xl);
             (plt_ylabel "time $t/J$", Ok yl);
             (plt_ylim (of_Z 0) tmax, Ok lim);
             (plt_colorbar, Ok (PyObj cb));
             (set_label cb "entropy $S$", Ok PyNone);
             (plt_savefig ("c_tebd_lightcone_" ++ format_f 2 g ++ ".pdf"),
              Ok PyNone);
             (print [PyStr ("saved " ++ "c_tebd_lightcone_" ++ format_f 2 g
                            ++ ".pdf")], Ok PyNone)])%list.
Proof.
  intros H. unfold example_TEBD_tf_ising_lightcone in H.
  cbv [bind call ret lift] in H.
  forward H h.
  match goal with a : ret_type (example_DMRG_tf_ising_finite _ _ _) |- _ =>
    destruct a as [[E_ psi] M_] end.
  cbv beta iota in H. forward H h.
  destruct (lightcone_N_steps dt) as [N_steps|] eqn:EN; cbv beta iota in H;
    [|discriminate H].
  forward H h.
  destruct (lightcone_N tmax) as [N|] eqn:ENN; cbv beta iota in H;
    [|discriminate H].
  match type of H with context [for_loop ?l ?b ?s h ?w0] =>
    destruct (for_loop l b s h w0) as [[[S|x] wl] tl] eqn:Eloop;
    cbv beta iota in H; [|discriminate H] end.
  forward H h.
  destruct (of_int L) as [Lf|] eqn:EL; cbv beta iota in H; [|discriminate H].
  forward H h.
  injection H as <- <- <-.
  apply lightcone_loop_transcript in Eloop.
  destruct Eloop as (ss & -> & Hlen & Hloop).
  rewrite length_range in Hlen.
  exists E_, psi, M_, N_steps. do 2 eexists. exists N, ss. eexists. exists Lf.
  do 6 eexists.
  do 4 (split; [first [reflexivity | assumption]|]).
  unfold transcript in *. cbn [map app]. rewrite map_app, Hloop.
  reflexivity.
Qed.

End Transcripts.

(** ** Runs in which no request raises *)

Section Dependable.

Context {W : Type}.

Lemma requests_transcript (t : trace W) :
  requests t = map fst (transcript t).
Proof.
  unfold requests, transcript. rewrite map_map. reflexivity.
Qed.

Lemma clean_app (t1 t2 : trace W) :
  clean (t1 ++ t2)%list -> clean t1 /\ clean t2.
Proof. apply Forall_app. Qed.

Lemma dependable_ret {A : Type} (a : A) : dependable (W:=W) (ret a).
Proof. intros h w _; reflexivity. Qed.

Lemma dependable_lift {A : Type} (r : outcome A) :
  is_ok r = true -> dependable (W:=W) (lift r).
Proof. intros H h w _; exact H. Qed.

Lemma dependable_call (q : request) : dependable (W:=W) (call q).
Proof.
  intros h w. unfold call. destruct (h q w) as [[a|x] w']; simpl.
  - reflexivity.
  - intros H. inversion H as [|e t He Ht]. discriminate He.
Qed.

Lemma dependable_bind {A B : Type} (m : M W A) (k : A -> M W B) :
  dependable m -> (forall a, dependable (k a)) -> dependable (bind m k).
Proof.
  intros Hm Hk h w. unfold bind.
  specialize (Hm h w). destruct (m h w) as [[[a|x] w1] t1]; simpl in *.
  - specialize (Hk a h w1). destruct (k a h w1) as [[r w2] t2]; simpl in *.
    intros H. apply clean_app in H. now apply Hk.
  - exact Hm.
Qed.

Lemma dependable_for {S : Type} (items : list Z) (body : Z -> S -> M W S)
      (s : S) :
  (forall i s', dependable (body i s')) ->
  dependable (for_loop items body s).
Proof.
  intros Hb. revert s; induction items as [|i items IH]; intros s; simpl.
  - apply dependable_ret.
  - apply dependable_bind; [apply Hb | exact IH].
Qed.

Lemma run_eta {A : Type} (x : outcome A * W * trace W) (r : outcome A) :
  fst (fst x) = r -> x = (r, snd (fst x), snd x).
Proof. destruct x as [[r' w'] t]; simpl; now intros ->. Qed.

Lemma is_ok_inv {A : Type} (r : outcome A) :
  is_ok r = true -> exists a, r = Ok a.
Proof. destruct r; [now eexists | discriminate]. Qed.

End Dependable.

Ltac depend :=
  repeat first
    [ apply dependable_ret
    | exact (dependable_call _)
    | apply dependable_for; intros
    | apply dependable_bind; [|intros]
    | match goal with
      | |- dependable (if ?b then _ else _) => destruct b
      | |- dependable (match ?x with (_, _) => _ end) => destruct x
      end ].

Section Returns.

Context {W : Type}.

Lemma finite_dependable (L : Z) (g : float) (verbose : bool) :
  dependable (@example_TEBD_gs_tf_ising_finite W L g verbose).
Proof. unfold example_TEBD_gs_tf_ising_finite. depend. Qed.

Lemma infinite_dependable (g : float) (verbose : bool) :
  dependable (@example_TEBD_gs_tf_ising_infinite W g verbose).
Proof. unfold example_TEBD_gs_tf_ising_infinite. depend. Qed.

Lemma lightcone_dependable (L : Z) (g tmax dt : float) (verbose : bool) :
  is_ok (lightcone_N_steps dt) = true ->
  is_ok (lightcone_N tmax) = true ->
  is_ok (Float64.of_int L) = true ->
  dependable (@example_TEBD_tf_ising_lightcone W L g tmax dt verbose).
Proof.
  intros H1 H2 H3. unfold example_TEBD_tf_ising_lightcone.
  repeat first [ apply dependable_lift; assumption | progress depend ].
Qed.

End Returns.

(** ** The ground-state drivers *)

Section GroundStateDrivers.

Context {W : Type}.
Import Float64.

Lemma exact_energy_only_for_small (L : Z) (g : float) (verbose : bool) :
  straight (fun q => is_finite_gs_energy q = true -> L < 20)
           (@example_TEBD_gs_tf_ising_finite W L g verbose).
Proof.
  unfold example_TEBD_gs_tf_ising_finite.
  destruct (Z.ltb_spec L 20) as [Hlt|Hge];
    straighten; solve [discriminate | intros _; exact Hlt].
Qed.

Lemma existsb_requests (p : request -> bool) (P : Prop) (t : trace W) :
  Forall (fun e => p (ev e) = true -> P) t ->
  existsb p (requests t) = true -> P.
Proof.
  intros HF H. apply existsb_exists in H. destruct H as (q & Hin & Hq).
  apply in_map_iff in Hin. destruct Hin as (e & <- & Hin).
  rewrite Forall_forall in HF. exact (HF e Hin Hq).
Qed.

(** C2.  The finite driver asks for the exact ground-state energy only
    when [L < 20].  In a run in which no request raises, the driver
    returns; if [L < 20] the run ends with the import of [tfi_exact], the
    call [finite_gs_energy(L, 1., g)] and the two prints, the second of
    the relative error [abs((E - E_exact) / E_exact)]; if [L >= 20] the
    run has neither that call nor that print. *)
Theorem finite_exact_check_iff_small (h : handler W) (w : W) (L : Z)
        (g : float) (verbose : bool) :
  let run_ := example_TEBD_gs_tf_ising_finite L g verbose h w in
  (existsb is_finite_gs_energy (requests (snd run_)) = true -> L < 20)
  /\ (clean (snd run_) ->
      exists E psi M_,
        fst (fst run_) = Ok (E, psi, M_)
        /\ (L < 20 ->
            exists pre E_exact,
              transcript (snd run_) =
                (pre ++
                 [(import_ "tfi_exact", Ok PyNone);
                  (finite_gs_energy L (of_Z 1) g, Ok (PyFloat E_exact));
                  (print [PyStr ("Exact diagonalization: E = "
                                 ++ format_f 13 E_exact)], Ok PyNone);
                  (print [PyStr "relative error: ";
                          PyFloat (abs (div (sub E E_exact) E_exact))],
                   Ok PyNone)])%list)
        /\ (20 <= L ->
            existsb is_finite_gs_energy (requests (snd run_)) = false
            /\ existsb is_relative_error_print (requests (snd run_))
               = false)).
Proof.
  intros run_. split.
  - apply existsb_requests.
    apply (straight_obeys _ _ (exact_energy_only_for_small L g verbose)).
  - intros Hclean.
    destruct (is_ok_inv _ (finite_dependable L g verbose h w Hclean))
      as ([[E psi] M_] & Hr).
    exists E, psi, M_. split; [exact Hr|].
    assert (Hrun : run_ = (Ok (E, psi, M_), snd (fst run_), snd run_)).
    { apply run_eta, Hr. }
    apply finite_transcript in Hrun.
    destruct Hrun as (lat1 & N_sites & lat2 & sites & lat3 & bc & eng & a
                      & chi & ax & mag_x & az & mag_z & E_exact & Ht).
    rewrite requests_transcript, Ht. split.
    + intros Hlt. apply Z.ltb_lt in Hlt. rewrite Hlt.
      eexists; exists E_exact. reflexivity.
    + intros Hge. apply Z.ltb_ge in Hge. rewrite Hge. split; reflexivity.
Qed.

(** C4.  In every run of the infinite driver in which no request raises,
    whatever [g], the driver returns, the model is built from parameters
    with [L = 2] and [bc_MPS = 'infinite'], and after [run_GS()] the run
    ends with the import of [tfi_exact], the call
    [infinite_gs_energy(1., g)] and the two prints, the second of the
    relative error. *)
Theorem infinite_always_checks (h : handler W) (w : W) (g : float)
        (verbose : bool) :
  let run_ := example_TEBD_gs_tf_ising_infinite g verbose h w in
  clean (snd run_) ->
  exists E psi M_ model_params eng pre mid1 mid2 E_exact,
    fst (fst run_) = Ok (E, psi, M_)
    /\ dict_get model_params "L" = Some (PyInt 2)
    /\ dict_get model_params "bc_MPS" = Some (PyStr "infinite")
    /\ transcript (snd run_) =
         (pre ++ [(TFIChain model_params, Ok (PyObj M_))]
          ++ mid1 ++ [(run_GS eng, Ok PyNone)]
          ++ mid2 ++
          [(import_ "tfi_exact", Ok PyNone);
           (infinite_gs_energy (of_Z 1) g, Ok (PyFloat E_exact));
           (print [PyStr ("Analytic result: E (per site) = "
                          ++ format_f 13 E_exact)], Ok PyNone);
           (print [PyStr "relative error: ";
                   PyFloat (abs (div (sub E E_exact) E_exact))],
            Ok PyNone)])%list.
Proof.
  intros run_ Hclean.
  destruct (is_ok_inv _ (infinite_dependable g verbose h w Hclean))
    as ([[E psi] M_] & Hr).
  assert (Hrun : run_ = (Ok (E, psi, M_), snd (fst run_), snd run_)).
  { apply run_eta, Hr. }
  apply infinite_transcript in Hrun.
  destruct Hrun as (lat1 & N_sites & lat2 & sites & lat3 & bc & eng & a
                    & chi & ax & mag_x & az & mag_z & xi & E_exact & Ht).
  exists E, psi, M_, (infinite_model_params g verbose), eng.
  exists (firstn 2 (transcript (snd run_))).
  exists (firstn 8 (skipn 3 (transcript (snd run_)))).
  exists (firstn 13 (skipn 12 (transcript (snd run_)))).
  exists E_exact.
  rewrite Ht. repeat split; try reflexivity. exact Hr.
Qed.

(** C9.  A ground-state driver that returns, returns the triple
    [(E, psi, M)]: [M] is the model it built, [psi] the state it made and
    gave to the engine, and [E] the value of
    [np.sum(M.bond_energies(psi))] asked right after [run_GS()].  The
    light-cone driver, when it returns, returns [None]. *)
Theorem drivers_return_values (h : handler W) (w w' : W) (t : trace W) :
  (forall L g verbose E psi M_,
      example_TEBD_gs_tf_ising_finite L g verbose h w
      = (Ok (E, psi, M_), w', t) ->
      energy_state_model t E psi M_)
  /\ (forall g verbose E psi M_,
         example_TEBD_gs_tf_ising_infinite g verbose h w
         = (Ok (E, psi, M_), w', t) ->
         energy_state_model t E psi M_)
  /\ (forall L g tmax dt verbose v,
         invoke (Lightcone L g tmax dt verbose) h w = (Ok v, w', t) ->
         v = PyNone).
Proof.
  split; [|split].
  - intros L g verbose E psi M_ H. apply finite_transcript in H.
    destruct H as (lat1 & N_sites & lat2 & sites & lat3 & bc & eng & a
                   & chi & ax & mag_x & az & mag_z & E_exact & Ht).
    unfold energy_state_model. rewrite Ht.
    exists (firstn 2 (transcript t)), (finite_model_params L g verbose).
    exists (firstn 6 (skipn 3 (transcript t))), sites.
    do 4 eexists. exists a. eexists.
    rewrite Ht. reflexivity.
  - intros g verbose E psi M_ H. apply infinite_transcript in H.
    destruct H as (lat1 & N_sites & lat2 & sites & lat3 & bc & eng & a
                   & chi & ax & mag_x & az & mag_z & xi & E_exact & Ht).
    unfold energy_state_model. rewrite Ht.
    exists (firstn 2 (transcript t)), (infinite_model_params g verbose).
    exists (firstn 6 (skipn 3 (transcript t))), sites.
    do 4 eexists. exists a. eexists.
    rewrite Ht. reflexivity.
  - intros L g tmax dt verbose v H. simpl in H. apply bind_ok in H.
    destruct H as (r & w1 & t1 & t2 & _ & H & _).
    now injection H as <- _ _.
Qed.

End GroundStateDrivers.

(** ** The whole script *)

Section WholeScript.

Context {W : Type}.
Import Float64.

Lemma script_obeys (f : entry_point) : obeys script_request (@invoke W f).
Proof. apply straight_obeys, invoke_straight. Qed.

(** C5.  Whatever entry point is called: when a request of its run
    raises, no request follows it, the call raises that same exception,
    and the environment is left in the state in which the failed request
    left it. *)
Theorem exceptions_propagate (h : handler W) (w : W) (f : entry_point)
        (pre post : trace W) (e : entry W) (x : exn) :
  snd (invoke f h w) = (pre ++ e :: post)%list ->
  res e = Raise x ->
  post = []
  /\ fst (fst (invoke f h w)) = Raise x
  /\ snd (fst (invoke f h w)) = after e.
Proof.
  intros Ht Hx. destruct (script_obeys f h w) as (_ & Hl & Hr).
  rewrite Ht in Hl, Hr.
  destruct (raises_last_split _ _ _ _ _ Hr Hx) as [-> Hraise].
  repeat split; [exact Hraise|]. now apply linked_last in Hl.
Qed.

(** C8.  Whatever entry point is called, no request of its run assigns
    to or deletes an attribute of an object, and the states of the
    environment in the record form one chain from the state at the call
    to the state at the end: the environment changes only by answering
    the requests. *)
Theorem no_direct_mutation (h : handler W) (w : W) (f : entry_point) :
  Forall (fun e => is_attr_write (ev e) = false) (snd (invoke f h w))
  /\ linked w (snd (invoke f h w)) (snd (fst (invoke f h w))).
Proof.
  destruct (script_obeys f h w) as (Hf & Hl & _). split; [|exact Hl].
  eapply Forall_impl; [|exact Hf]. now intros e (H & _).
Qed.

(** C7.  No request of a run of [__main__] reads the command line or
    opens a file.  A run that returns is made of a run of
    [example_TEBD_gs_tf_ising_finite(L=10, g=1.)], the print of a line of
    dashes, a run of [example_TEBD_gs_tf_ising_infinite(g=1.5)], the same
    print, and a run of
    [example_TEBD_tf_ising_lightcone(L=20, g=1.5, tmax=3., dt=0.01)], in
    this order, each from the state the one before left. *)
Theorem main_runs_three_examples (h : handler W) (w : W) :
  Forall (fun e => is_process_input (ev e) = false) (snd (main h w))
  /\ forall r w' t,
      main h w = (Ok r, w', t) ->
      exists r1 w1 t1 w2 r2 w3 t2 w4 t3,
        example_TEBD_gs_tf_ising_finite 10 (of_Z 1) true h w
        = (Ok r1, w1, t1)
        /\ example_TEBD_gs_tf_ising_infinite (lit 15 10) true h w2
           = (Ok r2, w3, t2)
        /\ example_TEBD_tf_ising_lightcone 20 (lit 15 10) (of_Z 3)
             (lit 1 100) true h w4
           = (Ok r, w', t3)
        /\ t = (t1
                ++ [Entry (print [PyStr (str_repeat "-" 100)]) (Ok PyNone)
                          w1 w2]
                ++ t2
                ++ [Entry (print [PyStr (str_repeat "-" 100)]) (Ok PyNone)
                          w3 w4]
                ++ t3)%list.
Proof.
  split.
  - destruct (straight_obeys _ _ (@main_straight W) h w) as (Hf & _).
    eapply Forall_impl; [|exact Hf]. now intros e (_ & H & _).
  - intros r w' t H. unfold main in H.
    apply bind_ok in H. destruct H as (r1 & w1 & t1 & ta & H1 & H & ->).
    apply bind_ok in H. destruct H as (u1 & w2 & tp1 & tb & Hp1 & H & ->).
    apply bind_ok in H. destruct H as (r2 & w3 & t2 & tc & H2 & H & ->).
    apply bind_ok in H. destruct H as (u2 & w4 & tp2 & t3 & Hp2 & H3 & ->).
    unfold call in Hp1, Hp2.
    destruct (h _ w1) as [[a1|x1] w2']; [|discriminate Hp1].
    destruct (h _ w3) as [[a2|x2] w4']; [|discriminate Hp2].
    injection Hp1 as <- <- <-. injection Hp2 as <- <- <-.
    exists r1, w1, t1, w2', r2, w3, t2, w4', t3.
    repeat split; assumption.
Qed.

End WholeScript.

(** ** Files *)

Section Files.

Context {W : Type}.








End Files.



Section ScriptFiles.

Context {W : Type}.
Import Float64.






End ScriptFiles.

(** ** The light-cone driver *)

Section Lightcone.

Context {W : Type}.
Import Float64.

(** C3, amended.  A run of the light-cone driver that returns is, in this
    order: the DMRG routine, ['Sigmaz'] applied as a unitary at site
    [L // 2], the engine made, one entropy, then for each of the
    [max(N, 0)] intervals, [N = int(tmax / dt_measure + 0.5)], one
    [run()] followed by one entropy, then the plot.  The list [S] given
    to [imshow] (reversed) has [max(N, 0) + 1] entries. *)
Theorem lightcone_pipeline (h : handler W) (w w' : W) (t : trace W)
        (L : Z) (g tmax dt : float) (verbose : bool) (r : NoneType) :
  example_TEBD_tf_ising_lightcone L g tmax dt verbose h w = (Ok r, w', t) ->
  exists E psi M_ N_steps eng s0 N ss fig Lf time im xl yl lim cb,
    lightcone_N tmax = Ok N
    /\ List.length ss = Z.to_nat N
    /\ Z.of_nat (List.length (s0 :: ss)) = Z.max N 0 + 1
    /\ transcript t =
        ([(print [PyStr "finite TEBD, real time evolution"], Ok PyNone);
          (print [PyStr ("L=" ++ format_d L ++ ", g=" ++ format_f 2 g
                         ++ ", tmax=" ++ format_f 2 tmax
                         ++ ", dt=" ++ format_f 3 dt)], Ok PyNone);
          (import_ "d_dmrg", Ok PyNone);
          (print [PyStr "(run DMRG to get the groundstate)"], Ok PyNone);
          (example_DMRG_tf_ising_finite L g false,
           Ok (PyTuple [PyFloat E; PyObj psi; PyObj M_]));
          (print [PyStr "(DMRG finished)"], Ok PyNone);
          (apply_local_op psi (L / 2) "Sigmaz" true, Ok PyNone);
          (tebd_Engine psi M_ (lightcone_tebd_params dt N_steps verbose),
           Ok (PyObj eng));
          (entanglement_entropy psi, Ok (PyObj s0))]
         ++ loop_transcript eng psi ss
         ++ [(import_ "matplotlib.pyplot", Ok PyNone);
             (plt_figure, Ok fig);
             (attr_evolved_time eng, Ok (PyFloat time));
             (plt_imshow (rev (s0 :: ss)) (of_Z 0) "auto" "nearest"
                (PyTuple [PyInt 0; PyFloat (sub Lf (of_Z 1));
                          PyFloat (mul (lit (-1) 2) dt_measure);
                          PyFloat (add time (mul (lit 1 2) dt_measure))]),
              Ok im);
             (plt_xlabel "site $i$", Ok xl);
             (plt_ylabel "time $t/J$", Ok yl);
             (plt_ylim (of_Z 0) tmax, Ok lim);
             (plt_colorbar, Ok (PyObj cb));
             (set_label cb "entropy $S$", Ok PyNone);
             (plt_savefig ("c_tebd_lightcone_" ++ format_f 2 g ++ ".pdf"),
              Ok PyNone);
             (print [PyStr ("saved " ++ "c_tebd_lightcone_" ++ format_f 2 g
                            ++ ".pdf")], Ok PyNone)])%list.
Proof.
  intros H. apply lightcone_transcript in H.
  destruct H as (E & psi & M_ & N_steps & eng & s0 & N & ss & fig & Lf
                 & time & im & xl & yl & lim & cb
                 & HNs & HN & HL & Hlen & Ht).
  exists E, psi, M_, N_steps, eng, s0, N, ss, fig, Lf, time, im, xl, yl,
    lim, cb.
  repeat split; try assumption.
  simpl List.length. rewrite Hlen. lia.
Qed.

Lemma same_refl {A : Type} (m : M W A) : same_but_engine_verbose m m.
Proof. intros h _ w; split; reflexivity. Qed.

Lemma same_bind {A B : Type} (m1 m2 : M W A) (k1 k2 : A -> M W B) :
  same_but_engine_verbose m1 m2 ->
  (forall a, same_but_engine_verbose (k1 a) (k2 a)) ->
  same_but_engine_verbose (bind m1 k1) (bind m2 k2).
Proof.
  intros Hm Hk h Hh w. unfold bind.
  destruct (Hm h Hh w) as [Hr Ht].
  destruct (m1 h w) as [[r1 w1] t1], (m2 h w) as [[r2 w2] t2].
  simpl in Hr, Ht. injection Hr as <- <-.
  destruct r1 as [a|x]; [|now split].
  destruct (Hk a h Hh w1) as [Hr' Ht'].
  destruct (k1 a h w1) as [[r1' w1'] t1'], (k2 a h w1) as [[r2' w2'] t2'].
  simpl in *. rewrite !map_app, Ht, Ht'. now split.
Qed.

Lemma same_engine (psi M_ : obj) (p1 p2 : dict) :
  dict_remove p1 "verbose" = dict_remove p2 "verbose" ->
  same_but_engine_verbose (W:=W) (call (tebd_Engine psi M_ p1))
                          (call (tebd_Engine psi M_ p2)).
Proof.
  intros Hp h Hh w. unfold call.
  rewrite (Hh psi M_ p1 w), (Hh psi M_ p2 w), Hp.
  destruct (h (tebd_Engine psi M_ (dict_remove p2 "verbose")) w) as [r w1].
  simpl. unfold forget_verbose; simpl. now rewrite Hp.
Qed.

Lemma lightcone_same (L : Z) (g tmax dt : float) (v1 v2 : bool) :
  same_but_engine_verbose
    (@example_TEBD_tf_ising_lightcone W L g tmax dt v1)
    (@example_TEBD_tf_ising_lightcone W L g tmax dt v2).
Proof.
  unfold example_TEBD_tf_ising_lightcone.
  repeat first
    [ apply same_refl
    | apply same_engine; reflexivity
    | apply same_bind; [|intros]
    | match goal with
      | |- same_but_engine_verbose (match ?x with (_, _) => _ end) _ =>
          destruct x
      end ].
Qed.

(** C10.  In every run of the light-cone driver, whatever its [verbose],
    the DMRG routine is only ever called with [verbose=False], and a run
    that returns has called it, with the [L] and [g] of the driver.  In
    an environment whose engine constructor ignores the ['verbose'] entry
    of its parameters, two runs that differ in [verbose] only give the
    same outcome, leave the same state and have the same record up to
    that entry: [verbose] reaches nothing but the engine's parameters. *)
Theorem dmrg_called_quietly (h : handler W) (w : W) (L : Z)
        (g tmax dt : float) :
  (forall verbose,
      let run_ := example_TEBD_tf_ising_lightcone L g tmax dt verbose h w in
      Forall (fun e => dmrg_quiet (ev e) = true) (snd run_)
      /\ (is_ok (fst (fst run_)) = true ->
          In (example_DMRG_tf_ising_finite L g false)
             (requests (snd run_))))
  /\ (engine_ignores_verbose h ->
      forall v1 v2,
        let run1 := example_TEBD_tf_ising_lightcone L g tmax dt v1 h w in
        let run2 := example_TEBD_tf_ising_lightcone L g tmax dt v2 h w in
        fst run1 = fst run2
        /\ map forget_verbose (snd run1) = map forget_verbose (snd run2)).
Proof.
  split.
  - intros verbose run_. split.
    + destruct (straight_obeys _ _
                  (@lightcone_straight W L g tmax dt verbose) h w)
        as (Hf & _).
      eapply Forall_impl; [|exact Hf]. now intros e (_ & _ & H).
    + intros Hok. apply is_ok_inv in Hok. destruct Hok as (r & Hr).
      apply run_eta in Hr. apply lightcone_transcript in Hr.
      destruct Hr as (E & psi & M_ & N_steps & eng & s0 & N & ss & fig
                      & Lf & time & im & xl & yl & lim & cb
                      & _ & _ & _ & _ & Ht).
      rewrite requests_transcript, Ht. simpl. tauto.
  - intros Hh v1 v2. exact (lightcone_same L g tmax dt v1 v2 h Hh w).
Qed.

End Lightcone.

(** ** The evolved time of the engine *)

Section EvolvedTime.

Context {W : Type}.
Import Float64.

Variable h : handler W.

Lemma find_set_engine (id : nat) (st : engine_state) (es : engines) :
  find_engine id (set_engine id st es) = Some st.
Proof.
  induction es as [|[id' st'] es IH]; simpl.
  - now rewrite Nat.eqb_refl.
  - destruct (Nat.eqb id id') eqn:E; simpl.
    + now rewrite Nat.eqb_refl.
    + now rewrite E.
Qed.

Lemma of_int_ok (n : Z) (x : float) : of_int n = Ok x -> x = of_Z n.
Proof.
  unfold of_int. destruct (of_Z n); intros H;
    solve [discriminate H | now injection H].
Qed.

Lemma Forall_bind {A B : Type} (Q : entry (W * engines) -> Prop)
      (m : M (W * engines) A) (k : A -> M (W * engines) B) h' w :
  Forall Q (snd (m h' w)) ->
  (forall a w1 t1, m h' w = (Ok a, w1, t1) -> Forall Q (snd (k a h' w1))) ->
  Forall Q (snd (bind m k h' w)).
Proof.
  intros Hm Hk. unfold bind.
  destruct (m h' w) as [[[a|x] w1] t1]; simpl in *; [|exact Hm].
  specialize (Hk a w1 t1 eq_refl).
  destruct (k a h' w1) as [[r w2] t2]; simpl in *.
  apply Forall_app; now split.
Qed.

(** Requests other than [run()] need nothing. *)
Lemma advances_other (step : float) (q : request)
      (h' : handler (W * engines)) (w : W * engines) :
  (forall eng, q <> run eng) ->
  Forall (advances_by step) (snd (call q h' w)).
Proof.
  intros Hq. unfold call. destruct (h' q w) as [r w']; simpl.
  constructor; [|constructor].
  intros eng Heq. simpl in Heq. now apply Hq in Heq.
Qed.

Lemma neutral_call (q : request) (w w1 : W * engines) (a : ret_type q)
      (t : trace (W * engines)) :
  clock_neutral q = true ->
  call q (with_engine_clock h) w = (Ok a, w1, t) ->
  snd w1 = snd w.
Proof.
  intros Hq. unfold call. destruct w as [w0 es].
  destruct q; try discriminate Hq; simpl;
    try (destruct (h _ w0) as [r w0']; intros H; now injection H as _ <- _).
  destruct eng as [id]. destruct (find_engine id es).
  - intros H; now injection H as _ <- _.
  - destruct (h _ w0) as [r w0']; intros H; now injection H as _ <- _.
Qed.

Lemma engine_made (psi M_ : obj) (p : dict) (w w1 : W * engines)
      (eng : obj) (t : trace (W * engines)) :
  call (tebd_Engine psi M_ p) (with_engine_clock h) w = (Ok eng, w1, t) ->
  exists id, eng = Obj id
             /\ find_engine id (snd w1) = Some (EngineState p (of_Z 0)).
Proof.
  unfold call. destruct w as [w0 es]. simpl.
  destruct (h (tebd_Engine psi M_ p) w0) as [[[id]|x] w0']; intros H;
    [|discriminate H].
  injection H as <- <- _. exists id. split; [reflexivity|].
  apply find_set_engine.
Qed.

(** One [run()] of an engine whose parameters hold [N_steps] and [dt]. *)
Lemma run_advances (id : nat) (st : engine_state) (N_steps : Z)
      (dt : float) (w0 : W) (es : engines) :
  find_engine id es = Some st ->
  run_increment (TEBD_params st)
  = Some (outcome_map (fun x => mul x dt) (of_int N_steps)) ->
  let r := call (run (Obj id)) (with_engine_clock h) (w0, es) in
  Forall (advances_by (mul (of_Z N_steps) dt)) (snd r)
  /\ forall a w1 t, r = (Ok a, w1, t) ->
       exists st', find_engine id (snd w1) = Some st'
                   /\ TEBD_params st' = TEBD_params st.
Proof.
  intros Hfind Hinc. unfold call. simpl.
  destruct (h (run (Obj id)) w0) as [[a|x] w0']; rewrite ?Hfind, ?Hinc.
  - destruct (of_int N_steps) as [x|x] eqn:Ex; simpl.
    + apply of_int_ok in Ex. subst x. split.
      * constructor; [|constructor]. intros eng Hev _. simpl in *.
        injection Hev as <-. simpl. rewrite Hfind, find_set_engine.
        simpl. now eexists.
      * intros a' w1 t H. injection H as _ <- _. simpl.
        rewrite find_set_engine. now eexists.
    + split.
      * constructor; [|constructor]. intros eng _ Hres. discriminate Hres.
      * intros a' w1 t H. discriminate H.
  - split.
    + constructor; [|constructor]. intros eng _ Hres. discriminate Hres.
    + intros a' w1 t H. discriminate H.
Qed.

Ltac other_request := refine (advances_other _ _ _ _ _); now intros ?.

Lemma loop_advances (id : nat) (psi : obj) (N_steps : Z) (dt : float)
      (items : list Z) :
  forall (S0 : list obj) (w0 : W) (es : engines) (st : engine_state),
    find_engine id es = Some st ->
    run_increment (TEBD_params st)
    = Some (outcome_map (fun x => mul x dt) (of_int N_steps)) ->
    Forall (advances_by (mul (of_Z N_steps) dt))
      (snd (for_loop items
              (fun _ S => bind (call (run (Obj id))) (fun _ =>
                          bind (call (entanglement_entropy psi)) (fun s =>
                          ret (S ++ [s : obj])%list)))
              S0 (with_engine_clock h) (w0, es))).
Proof.
  induction items as [|i items IH]; intros S0 w0 es st Hfind Hinc; simpl.
  - constructor.
  - destruct (run_advances id st N_steps dt w0 es Hfind Hinc) as [Hq Hst].
    apply Forall_bind.
    + apply Forall_bind; [exact Hq|]. intros a w1 t1 Hrun.
      apply Forall_bind; [other_request|].
      intros s w2 t2 _. constructor.
    + intros S1 w3 t3 Hbody.
      apply bind_ok in Hbody.
      destruct Hbody as (a & w1 & t1 & t2 & Hrun & Hbody & _).
      apply bind_ok in Hbody.
      destruct Hbody as (s & w2 & t4 & t5 & Hent & Hret & _).
      injection Hret as _ <- _.
      apply Hst in Hrun. destruct Hrun as (st' & Hfind' & Hp').
      apply (neutral_call (entanglement_entropy psi) _ _ _ _ eq_refl) in Hent.
      destruct w2 as [w2 es2]. simpl in Hent. subst es2.
      apply (IH _ w2 (snd w1) st'); [exact Hfind'|now rewrite Hp'].
Qed.

(** C1, amended.  With the engine modelled as making [N_steps] steps of
    [dt] per [run()]: in every run of the light-cone driver, each
    [run()] that succeeds adds the same amount to the evolved time of the
    engine, [N_steps * dt] with [N_steps = int(dt_measure // dt)] and
    [dt_measure = 0.05].  For [dt = 0.01] this is [N_steps = 5] and
    [5 * 0.01 == 0.05], the measurement interval. *)
Theorem lightcone_time_steps (w : W) (es : engines) (L : Z)
        (g tmax dt : float) (verbose : bool) (N_steps : Z) :
  lightcone_N_steps dt = Ok N_steps ->
  Forall (advances_by (mul (of_Z N_steps) dt))
    (snd (example_TEBD_tf_ising_lightcone L g tmax dt verbose
            (with_engine_clock h) (w, es)))
  /\ (dt = lit 1 100 ->
      N_steps = 5 /\ mul (of_Z N_steps) dt = lit 5 100).
Proof.
  intros HN. split.
  - unfold example_TEBD_tf_ising_lightcone. rewrite HN.
    do 4 (apply Forall_bind; [other_request | intros ? ? ? _]).
    apply Forall_bind; [other_request | intros [[E psi] M_] ? ? _].
    do 2 (apply Forall_bind; [other_request | intros ? ? ? _]).
    apply Forall_bind; [constructor | intros n ? ? Hn].
    injection Hn as <- _ _.
    apply Forall_bind; [other_request | intros eng wE tE Heng].
    apply engine_made in Heng. destruct Heng as (id & -> & Hfind).
    apply Forall_bind; [other_request | intros s0 wS tS Hent].
    apply (neutral_call (entanglement_entropy psi) _ _ _ _ eq_refl) in Hent.
    apply Forall_bind; [constructor | intros N wN tN HNN].
    assert (wN = wS) as -> by (unfold lift in HNN; now injection HNN).
    destruct wS as [wS esS]. simpl in Hent. subst esS.
    apply Forall_bind.
    + apply (loop_advances id psi N_steps dt _ _ wS (snd wE) _ Hfind).
      reflexivity.
    + intros S wL tL _.
      assert (Hrest : forall (m : M (W * engines) NoneType),
                 straight (fun q => forall eng, q <> run eng) m ->
                 Forall (advances_by (mul (of_Z N_steps) dt))
                        (snd (m (with_engine_clock h) wL))).
      { intros m Hm. destruct (straight_obeys _ _ Hm (with_engine_clock h) wL)
          as (Hf & _).
        eapply Forall_impl; [|exact Hf].
        intros e He eng Hev. now apply He in Hev. }
      apply Hrest. straighten; intros eng'; discriminate.
  - intros ->. vm_compute in HN. injection HN as <-.
    split; [reflexivity|]. vm_compute. reflexivity.
Qed.

End EvolvedTime.

(** ** Runs in the stub environment *)

Section Examples.

Import Float64.

(** A program with a [try] statement is not of this kind: the exception of
    its request is recorded, and the program returns. *)
Example try_except_swallows :
  let m := try_except (call (import_ "tfi_exact")) (fun _ => ret None_) in
  let run_ := m (failing_env 0) 0%nat in
  fst (fst run_) = Ok None_
  /\ map res (snd run_) = [Raise (LibraryError "failure")].
Proof. split; reflexivity. Qed.

Lemma lightcone_time_steps_witness :
  Forall (advances_by (mul (of_Z 5) (lit 1 100)))
         (snd (example_TEBD_tf_ising_lightcone 20 (lit 15 10) (of_Z 3)
                 (lit 1 100) true (with_engine_clock stub_env) (0%nat, []))).
Proof.
  refine (proj1 (lightcone_time_steps stub_env 0%nat [] 20 (lit 15 10)
                   (of_Z 3) (lit 1 100) true 5 _)).
  vm_compute. reflexivity.
Defined.

(** With [dt = 0.02] the engine makes [int(0.05 // 0.02) = 2] steps per
    [run()], and the evolved time advances by [0.04], not by the
    measurement interval [0.05]. *)
Lemma time_step_counterexample :
  let run_ :=
    example_TEBD_tf_ising_lightcone 20 (lit 15 10) (lit 2 10) (lit 2 100)
      true (with_engine_clock stub_env) (0%nat, []) in
  lightcone_N_steps (lit 2 100) = Ok 2
  /\ mul (of_Z 2) (lit 2 100) = lit 4 100
  /\ ~ Forall (advances_by dt_measure) (snd run_).
Proof.
  intros run_. split; [vm_compute; reflexivity|].
  split; [vm_compute; reflexivity|].
  intros H. rewrite Forall_forall in H.
  pose (e := nth 9 (snd run_)
                 (Entry plt_figure (Ok PyNone) (0%nat, []) (0%nat, []))).
  assert (Hin : In e (snd run_)).
  { apply nth_In. apply Nat.ltb_lt. vm_compute. reflexivity. }
  assert (Hev : ev e = run (Obj 14)) by (vm_compute; reflexivity).
  assert (Hres : res e = Ok PyNone) by (vm_compute; reflexivity).
  destruct (H e Hin (Obj 14) Hev Hres) as (time & Hb & Ha).
  vm_compute in Hb. injection Hb as <-.
  vm_compute in Ha. discriminate Ha.
Qed.

Lemma finite_exact_check_witness :
  exists E psi M_,
    fst (fst (example_TEBD_gs_tf_ising_finite 10 (of_Z 1) true
                stub_env 0%nat)) = Ok (E, psi, M_).
Proof.
  destruct (proj2 (finite_exact_check_iff_small stub_env 0%nat 10 (of_Z 1)
                     true)) as (E & psi & M_ & H & _).
  - vm_compute. repeat constructor.
  - now exists E, psi, M_.
Defined.

(** With [tmax = -1.] the number of intervals is [N = int(-19.5) = -19],
    the loop body never runs, and the list given to [imshow] has one
    entry, not [N + 1 = -18]. *)
Lemma entropy_count_counterexample :
  let run_ :=
    example_TEBD_tf_ising_lightcone 20 (lit 15 10) (of_Z (-1)) (lit 1 100)
      true stub_env 0%nat in
  fst (fst run_) = Ok None_
  /\ lightcone_N (of_Z (-1)) = Ok (-19)
  /\ exists S vmin aspect interpolation extent,
      In (plt_imshow S vmin aspect interpolation extent)
         (requests (snd run_))
      /\ Z.of_nat (List.length S) <> -19 + 1.
Proof.
  intros run_. split; [vm_compute; reflexivity|].
  split; [vm_compute; reflexivity|].
  exists [Obj 16]. do 4 eexists. split.
  - vm_compute. do 12 right. left. reflexivity.
  - simpl. lia.
Qed.

Lemma lightcone_pipeline_witness :
  exists (N : Z) (ss : list obj),
    lightcone_N (of_Z 3) = Ok N /\ List.length ss = Z.to_nat N.
Proof.
  destruct (lightcone_pipeline stub_env 0%nat
              (snd (fst (example_TEBD_tf_ising_lightcone 20 (lit 15 10) (of_Z 3)
                         (lit 1 100) true stub_env 0%nat)))
              (snd (example_TEBD_tf_ising_lightcone 20 (lit 15 10) (of_Z 3)
                         (lit 1 100) true stub_env 0%nat))
              20 (lit 15 10) (of_Z 3) (lit 1 100) true None_)
    as (E & psi & M_ & N_steps & eng & s0 & N & ss & fig & Lf & time & im
        & xl & yl & lim & cb & HN & Hlen & _).
  - vm_compute. reflexivity.
  - now exists N, ss.
Defined.

Lemma infinite_always_checks_witness :
  exists E psi M_,
    fst (fst (example_TEBD_gs_tf_ising_infinite (lit 15 10) true
                stub_env 0%nat)) = Ok (E, psi, M_).
Proof.
  destruct (infinite_always_checks stub_env 0%nat (lit 15 10) true)
    as (E & psi & M_ & mp & eng & pre & mid1 & mid2 & E_exact & H & _).
  - vm_compute. repeat constructor.
  - now exists E, psi, M_.
Defined.

Lemma exceptions_propagate_witness :
  let call_ := invoke (Lightcone 20 (lit 15 10) (of_Z 3) (lit 1 100) true)
                      (failing_env 4) 0%nat in
  fst (fst call_) = Raise (LibraryError "failure")
  /\ snd (fst call_) = 5%nat.
Proof.
  intros call_.
  pose (d := Entry plt_figure (Ok PyNone) 0%nat 0%nat).
  destruct (exceptions_propagate (failing_env 4) 0%nat
              (Lightcone 20 (lit 15 10) (of_Z 3) (lit 1 100) true)
              (firstn 4 (snd call_)) [] (nth 4 (snd call_) d)
              (LibraryError "failure"))
    as (_ & Hr & Hw).
  - vm_compute. reflexivity.
  - vm_compute. reflexivity.
  - split; [exact Hr|].
    etransitivity; [exact Hw | vm_compute; reflexivity].
Defined.


Lemma main_runs_three_examples_witness :
  exists r1 w1 t1,
    example_TEBD_gs_tf_ising_finite 10 (of_Z 1) true stub_env 0%nat
    = (Ok r1, w1, t1).
Proof.
  destruct (proj2 (main_runs_three_examples stub_env 0%nat) None_
              (snd (fst (main stub_env 0%nat)))
              (snd (main stub_env 0%nat)))
    as (r1 & w1 & t1 & w2 & r2 & w3 & t2 & w4 & t3 & H1 & _).
  - vm_compute. reflexivity.
  - now exists r1, w1, t1.
Defined.

Lemma drivers_return_values_witness :
  energy_state_model
    (snd (example_TEBD_gs_tf_ising_finite 10 (of_Z 1) true stub_env 0%nat))
    (of_Z 1) (Obj 18) (Obj 4).
Proof.
  apply (proj1 (drivers_return_values stub_env 0%nat 54%nat _)
           10 (of_Z 1) true).
  vm_compute. reflexivity.
Defined.

Lemma stub_ignores_verbose : engine_ignores_verbose stub_env.
Proof. intros psi M_ p w. reflexivity. Qed.

Lemma dmrg_called_quietly_witness :
  fst (example_TEBD_tf_ising_lightcone 20 (lit 15 10) (of_Z 3) (lit 1 100)
         true stub_env 0%nat)
  = fst (example_TEBD_tf_ising_lightcone 20 (lit 15 10) (of_Z 3)
           (lit 1 100) false stub_env 0%nat).
Proof.
  exact (proj1 (proj2 (dmrg_called_quietly stub_env 0%nat 20 (lit 15 10)
                         (of_Z 3) (lit 1 100))
                  stub_ignores_verbose true false)).
Defined.

End Examples.

(** * Further properties of the script *)

(** ** The order of the requests *)

Section MonitorRules.

Context {W S : Type}.
Variable step : S -> request -> outcome pyval -> option S.

Lemma monitor_app (s : S) (tr1 tr2 : list (request * outcome pyval)) :
  monitor step s (tr1 ++ tr2)%list
  = match monitor step s tr1 with
    | Some s1 => monitor step s1 tr2
    | None => None
    end.
Proof.
  revert s; induction tr1 as [|[q r] tr1 IH]; intros s; simpl.
  - reflexivity.
  - destruct (step s q r); [apply IH | reflexivity].
Qed.

Lemma tracks_ret {A : Type} (s : S) (a : A) :
  tracks (W:=W) step s (ret a) s.
Proof. intros h w. exists s. now split. Qed.

Lemma tracks_lift {A : Type} (s : S) (r : outcome A) :
  tracks (W:=W) step s (lift r) s.
Proof. intros h w. exists s. now split. Qed.

Lemma tracks_call (s s' : S) (q : request) :
  (forall v, step s q (Ok v) = Some s') ->
  (forall x, step s q (Raise x) <> None) ->
  tracks (W:=W) step s (call q) s'.
Proof.
  intros Hok Hraise h w. unfold call.
  destruct (h q w) as [[a|x] w']; simpl.
  - rewrite Hok. exists s'. now split.
  - specialize (Hraise x). destruct (step s q (Raise x)) as [s1|].
    + exists s1. split; [reflexivity | discriminate].
    + now contradict Hraise.
Qed.

Lemma tracks_bind (s s1 s2 : S) {A B : Type} (m : M W A) (k : A -> M W B) :
  tracks step s m s1 -> (forall a, tracks step s1 (k a) s2) ->
  tracks step s (bind m k) s2.
Proof.
  intros Hm Hk h w. unfold bind.
  destruct (Hm h w) as (u & Hu & Hu').
  destruct (m h w) as [[[a|x] w1] t1]; simpl in *.
  - rewrite (Hu' eq_refl) in Hu.
    destruct (Hk a h w1) as (v & Hv & Hv').
    destruct (k a h w1) as [[r w2] t2]; simpl in *.
    exists v. unfold transcript in *. rewrite map_app, monitor_app, Hu.
    now split.
  - exists u. split; [exact Hu | discriminate].
Qed.

Lemma tracks_for (s : S) {T : Type} (items : list Z) (body : Z -> T -> M W T)
      (t0 : T) :
  (forall i t', tracks step s (body i t') s) ->
  tracks step s (for_loop items body t0) s.
Proof.
  intros Hb. revert t0; induction items as [|i items IH]; intros t0; simpl.
  - apply tracks_ret.
  - apply tracks_bind with s; [apply Hb | exact IH].
Qed.

End MonitorRules.

Ltac track :=
  repeat first
    [ apply tracks_ret
    | apply tracks_lift
    | refine (tracks_call _ _ _ _ _ _);
      [ intros ?;
        cbv beta iota delta [search_step lightcone_step is_ok is_measurement
                             andb negb Nat.eqb];
        reflexivity
      | intros ?; discriminate ]
    | apply tracks_for; intros
    | eapply tracks_bind; [|intros]
    | match goal with
      | |- tracks _ _ (if ?b then _ else _) _ => destruct b
      | |- tracks _ _ (match ?x with (_, _) => _ end) _ => destruct x
      end ].

Section Orders.

Context {W : Type}.

Lemma finite_tracks (L : Z) (g : float) (verbose : bool) :
  tracks search_step false
         (@example_TEBD_gs_tf_ising_finite W L g verbose) true.
Proof. unfold example_TEBD_gs_tf_ising_finite. track. Qed.

Lemma infinite_tracks (g : float) (verbose : bool) :
  tracks search_step false
         (@example_TEBD_gs_tf_ising_infinite W g verbose) true.
Proof. unfold example_TEBD_gs_tf_ising_infinite. track. Qed.

Lemma lightcone_tracks (L : Z) (g tmax dt : float) (verbose : bool) :
  tracks lightcone_step 0%nat
         (@example_TEBD_tf_ising_lightcone W L g tmax dt verbose) 3%nat.
Proof. unfold example_TEBD_tf_ising_lightcone. track. Qed.

End Orders.

Section OrderTheorems.

Context {W : Type}.

Lemma search_found (pre : list (request * outcome pyval)) :
  monitor search_step false pre = Some true ->
  exists eng v, In (run_GS eng, Ok v) pre.
Proof.
  induction pre as [|[q r] pre IH]; simpl; [discriminate|].
  destruct (search_step false q r) as [s|] eqn:E; [|discriminate].
  destruct s.
  - intros _. destruct q; try discriminate E.
    + simpl in E. destruct r as [v|x]; [|discriminate E].
      exists eng, v. now left.
  - intros H. destruct (IH H) as (eng & v & Hin).
    exists eng, v. now right.
Qed.

Lemma search_order (tr pre post : list (request * outcome pyval))
      (q : request) (r : outcome pyval) :
  monitor search_step false tr <> None ->
  tr = (pre ++ (q, r) :: post)%list ->
  is_measurement q = true ->
  exists eng v, In (run_GS eng, Ok v) pre.
Proof.
  intros Hm -> Hq. rewrite monitor_app in Hm.
  destruct (monitor search_step false pre) as [[|]|] eqn:E.
  - now apply search_found.
  - simpl in Hm. destruct q; try discriminate Hq; now contradict Hm.
  - now contradict Hm.
Qed.

(** X1.  In every run of a ground-state driver, whether it returns or
    raises, each measurement of the state ([bond_energies],
    [expectation_value], [chi], [correlation_length]) comes after a
    [run_GS()] that succeeded. *)
Theorem measurements_follow_search (h : handler W) (w : W)
        (pre post : list (request * outcome pyval)) (q : request)
        (r : outcome pyval) :
  (forall L g verbose,
      transcript (snd (example_TEBD_gs_tf_ising_finite L g verbose h w))
      = (pre ++ (q, r) :: post)%list ->
      is_measurement q = true ->
      exists eng v, In (run_GS eng, Ok v) pre)
  /\ (forall g verbose,
         transcript (snd (example_TEBD_gs_tf_ising_infinite g verbose h w))
         = (pre ++ (q, r) :: post)%list ->
         is_measurement q = true ->
         exists eng v, In (run_GS eng, Ok v) pre).
Proof.
  split.
  - intros L g verbose Ht Hq.
    destruct (finite_tracks L g verbose h w) as (s1 & Hs & _).
    eapply search_order; [|exact Ht|exact Hq]. now rewrite Hs.
  - intros g verbose Ht Hq.
    destruct (infinite_tracks g verbose h w) as (s1 & Hs & _).
    eapply search_order; [|exact Ht|exact Hq]. now rewrite Hs.
Qed.

Lemma lightcone_step_up (p p1 : nat) (q : request) (r : outcome pyval) :
  lightcone_step p q r = Some p1 ->
  p1 = p \/ (p1 = S p /\ exists v, r = Ok v).
Proof.
  destruct q; simpl; try discriminate;
    try (intros H; injection H as <-; now left);
    try (destruct (Nat.eqb p _); [|discriminate];
         intros H; injection H as <-; now left).
  - destruct (Nat.eqb_spec p 2); [subst p|discriminate].
    destruct r as [v|x]; intros H; injection H as <-;
      [right; split; [reflexivity | now exists v] | now left].
  - destruct (Nat.eqb_spec p 1); [subst p|discriminate].
    destruct r as [v|x]; intros H; injection H as <-;
      [right; split; [reflexivity | now exists v] | now left].
  - destruct (Nat.eqb_spec p 0); [subst p|discriminate].
    destruct r as [v|x]; intros H; injection H as <-;
      [right; split; [reflexivity | now exists v] | now left].
Qed.

(** To reach the phase [S k], a transcript passes the phase [k] and then
    has the request that ends it. *)
Lemma lightcone_climb (k : nat) (pre : list (request * outcome pyval)) :
  forall p,
    monitor lightcone_step p pre = Some (S k) -> (p <= k)%nat ->
    exists a q v b,
      pre = (a ++ (q, Ok v) :: b)%list
      /\ monitor lightcone_step p a = Some k
      /\ lightcone_step k q (Ok v) = Some (S k).
Proof.
  induction pre as [|[q r] pre IH]; intros p H Hp; simpl in H.
  - injection H as ->. lia.
  - destruct (lightcone_step p q r) as [p1|] eqn:E; [|discriminate H].
    destruct (lightcone_step_up _ _ _ _ E) as [->|[-> (v & ->)]].
    + destruct (IH p H Hp) as (a & q' & v & b & -> & Ha & Hq').
      exists ((q, r) :: a), q', v, b. simpl. rewrite E. now repeat split.
    + destruct (Nat.eq_dec p k) as [->|Hne].
      * exists [], q, v, pre. now repeat split.
      * destruct (IH (S p) H ltac:(lia)) as (a & q' & v' & b & -> & Ha & Hq').
        exists ((q, Ok v) :: a), q', v', b. simpl. rewrite E.
        now repeat split.
Qed.

(** X2.  In every run of the light-cone driver, whether it returns or
    raises, a request that uses the engine or plots ([run],
    [entanglement_entropy], [evolved_time], the [plt] calls) comes after,
    in this order, the DMRG routine, [apply_local_op] and the engine
    constructor, each of which succeeded. *)
Theorem lightcone_requests_in_order (h : handler W) (w : W) (L : Z)
        (g tmax dt : float) (verbose : bool)
        (pre post : list (request * outcome pyval)) (q : request)
        (r : outcome pyval) :
  transcript (snd (example_TEBD_tf_ising_lightcone L g tmax dt verbose h w))
  = (pre ++ (q, r) :: post)%list ->
  is_late q = true ->
  exists a1 a2 a3 a4 L' g' b' v1 psi i op u v2 psi' M' p v3,
    pre = (a1 ++ (example_DMRG_tf_ising_finite L' g' b', Ok v1)
           :: a2 ++ (apply_local_op psi i op u, Ok v2)
           :: a3 ++ (tebd_Engine psi' M' p, Ok v3) :: a4)%list.
Proof.
  intros Ht Hq.
  destruct (lightcone_tracks L g tmax dt verbose h w) as (s1 & Hs & _).
  rewrite Ht, monitor_app in Hs.
  destruct (monitor lightcone_step 0%nat pre) as [ph|] eqn:E;
    [|discriminate Hs].
  assert (ph = 3%nat) as ->.
  { simpl in Hs. destruct q; try discriminate Hq; simpl in Hs;
      destruct (Nat.eqb_spec ph 3); congruence. }
  destruct (lightcone_climb 2 pre 0%nat E ltac:(lia))
    as (c3 & q3 & v3 & a4 & -> & E3 & H3).
  destruct (lightcone_climb 1 c3 0%nat E3 ltac:(lia))
    as (c2 & q2 & v2 & a3 & -> & E2 & H2).
  destruct (lightcone_climb 0 c2 0%nat E2 ltac:(lia))
    as (a1 & q1 & v1 & a2 & -> & _ & H1).
  destruct q3; try discriminate H3.
  destruct q2; try discriminate H2.
  destruct q1; try discriminate H1.
  rewrite <- !app_assoc. simpl. do 17 eexists. reflexivity.
Qed.

End OrderTheorems.
